(** * DDPG trainer of pytorchrl (src/pytorchrl/algos/ddpg.py)

    A shallow embedding of the [DDPG] class: its constructor, the training
    loop [train], the update step [do_training] and the two optimisation
    steps [train_qf] and [train_policy].

    Numbers held in torch tensors and the rewards of the loop (parameters,
    gradients, learning rates, returns) are modelled as real numbers:
    rounding of the underlying floats is abstracted away.  The regression
    targets are computed by numpy on the arrays of a batch; there the
    arithmetic is that of binary64 floats, infinities and NaN included.
    Integers of the loop (iteration counters, sizes, path lengths) are
    [Z].  The collaborators that ddpg.py imports
    from other packages (environment, exploration strategy, replay pool,
    the networks, autograd and the optimisers of torch) are interfaces;
    the state they own is passed explicitly and every call the trainer makes
    on them is also appended to a log. *)

From Stdlib Require Import Reals ZArith List Bool Lia Floats.
Import ListNotations.

Local Open Scope R_scope.

(** ** Tensors *)

(** A tensor is its sequence of entries; the parameters of a network are a
    list of tensors ([get_param_values] / [set_param_values]). *)
Definition Tensor := list R.
Definition Params := list Tensor.

(** An (N,1) torch tensor: one entry per row of the mini-batch. *)
Definition Column := list R.

(** An (N,1) numpy array of binary64 numbers, one per row. *)
Definition Array := list float.

Fixpoint zip_with {A B C : Type} (f : A -> B -> C) (xs : list A) (ys : list B)
  : list C :=
  match xs, ys with
  | x :: xs', y :: ys' => f x y :: zip_with f xs' ys'
  | _, _ => []
  end.

Definition same_shape (p q : Params) : Prop :=
  Forall2 (fun s t : Tensor => length s = length t) p q.

(** Array and scalar arithmetic of numpy in binary64.  The elementwise
    operations are those of two columns with the same number of rows; on
    other shapes numpy broadcasts or raises, which the properties below
    exclude by hypothesis. *)
Definition scalar_sub (c : float) (xs : Array) : Array :=
  map (fun x => (c - x)%float) xs.
Definition scalar_mul (xs : Array) (c : float) : Array :=
  map (fun x => (x * c)%float) xs.
Definition col_mul (xs ys : Array) : Array := zip_with PrimFloat.mul xs ys.
Definition col_add (xs ys : Array) : Array := zip_with PrimFloat.add xs ys.

(** [np.isfinite]: neither an infinity nor NaN. *)
Definition np_isfinite (x : float) : bool :=
  match Prim2SF x with
  | S754_zero _ | S754_finite _ _ _ => true
  | S754_infinity _ | S754_nan => false
  end.

Definition tensor_add (s t : Tensor) : Tensor := zip_with Rplus s t.
Definition params_add (p q : Params) : Params := zip_with tensor_add p q.
Definition params_zero (p : Params) : Params := map (map (fun _ => 0)) p.

Definition sum (xs : list R) : R := fold_right Rplus 0 xs.
Definition mean (xs : list R) : R := sum xs / INR (length xs).

(** [nn.MSELoss()]: mean of the squared differences. *)
Definition mse_loss (input target : Column) : R :=
  mean (zip_with (fun x y => (x - y) * (x - y)) input target).

(** A product of 64-bit integers wraps around. *)
Definition wrap_int64 (z : Z) : Z :=
  ((z + 9223372036854775808) mod 18446744073709551616
   - 9223372036854775808)%Z.

(** [np.prod] of a shape: the product of its dimensions as an [int64]. *)
Definition np_prod (shape : list Z) : Z :=
  fold_right (fun d acc => wrap_int64 (d * acc)) 1%Z shape.

(** Modelled from the spec: [running_average_tensor_list] of
    pytorchrl/misc/tensor_utils.py is imported by ddpg.py but its body is
    not among the sources.  The specification gives the law of the soft
    update: a target parameter with prior value [b] and live value [a]
    becomes [tau * a + (1 - tau) * b].  ddpg.py passes the target network's
    parameters first, the live network's second and [soft_target_tau] last. *)
Definition running_average (rate : R) (first second : R) : R :=
  rate * second + (1 - rate) * first.

Definition running_average_tensor (rate : R) (first second : Tensor) : Tensor :=
  zip_with (running_average rate) first second.

Definition running_average_tensor_list
  (first_list second_list : Params) (rate : R) : Params :=
  zip_with (running_average_tensor rate) first_list second_list.

(** Entry [j] of tensor [k] of a parameter list. *)
Definition entry (p : Params) (k j : nat) : option R :=
  match nth_error p k with
  | Some t => nth_error t j
  | None => None
  end.

(** The specification's soft-update law for one network: [new] is what the
    target holds after the update, [old] what it held before and [live]
    the live parameters it tracks. *)
Definition soft_update_law (tau : R) (old live new : Params) : Prop :=
  (forall k j a b,
      entry live k j = Some a ->
      entry old k j = Some b ->
      entry new k j = Some (tau * a + (1 - tau) * b) /\
      (tau = 1 -> entry new k j = Some a) /\
      (tau = 0 -> entry new k j = Some b)) /\
  (tau = 1 -> same_shape old live -> new = live) /\
  (tau = 0 -> same_shape old live -> new = old).

(** ** Networks and optimisers *)

(** A network object: the values of its parameters and the gradient buffer
    ([.grad]) that [backward] accumulates into. *)
Record Network := mkNetwork {
  param_values : Params;
  grad : option Params
}.

Definition set_param_values (n : Network) (v : Params) : Network :=
  mkNetwork v (grad n).

Definition get_param_values (n : Network) : Params := param_values n.

(** [copy.deepcopy]: a new object holding the same values. *)
Definition deepcopy (n : Network) : Network :=
  mkNetwork (param_values n) (grad n).

(** [backward] adds the new gradient to the buffer. *)
Definition accumulate (n : Network) (g : Params) : Network :=
  mkNetwork (param_values n)
    (Some match grad n with
          | None => g
          | Some old => params_add old g
          end).

(** The four network objects a trainer holds. *)
Inductive NetRef := RefPolicy | RefQf | RefTargetPolicy | RefTargetQf.

(** An optimiser object: the update method it was built from, the network
    whose [parameters()] it was given, and its keyword arguments.
    [opt_weight_decay = None] is a construction without the [weight_decay]
    keyword: the update method then uses its own default. *)
Record Optimizer (M St : Type) := mkOptimizer {
  opt_method : M;
  opt_params : NetRef;
  opt_lr : R;
  opt_weight_decay : option R;
  opt_state : St
}.
Arguments mkOptimizer {M St}.
Arguments opt_method {M St}.
Arguments opt_params {M St}.
Arguments opt_lr {M St}.
Arguments opt_weight_decay {M St}.
Arguments opt_state {M St}.

(** ** Interfaces of the collaborators *)

(** One mini-batch, as [pool.random_batch] returns it: a dictionary of
    arrays with one row per transition. *)
Record Batch (Obs Act : Type) := mkBatch {
  observations : list Obs;
  actions : list Act;
  rewards : Array;
  next_observations : list Obs;
  terminals : Array
}.
Arguments mkBatch {Obs Act}.
Arguments observations {Obs Act}.
Arguments actions {Obs Act}.
Arguments rewards {Obs Act}.
Arguments next_observations {Obs Act}.
Arguments terminals {Obs Act}.

Class Environment (E Obs Act : Type) := {
  observation_space_shape : E -> list Z;
  action_space_shape : E -> list Z;
  env_reset : E -> E * Obs;
  env_step : E -> Act -> E * (Obs * R * bool);
  env_render : E -> E;
  env_terminate : E -> E
}.

(** The exploration strategy; [get_action] is given the iteration number,
    the observation and the live policy, and draws its noise from the
    global random state [G]. *)
Class ExplorationStrategy (X G Obs Act : Type) := {
  es_reset : X -> X;
  es_get_action : X -> G -> Z -> Obs -> Params -> X * G * Act
}.

(** [SimpleReplayPool] of rllab. *)
Class ReplayPool (P G Obs Act : Type) := {
  pool_new : Z -> Z -> Z -> P;
  add_sample : P -> Obs -> Act -> R -> bool -> P;
  pool_size : P -> Z;
  random_batch : P -> G -> Z -> P * G * Batch Obs Act
}.

(** The policy and the q-function as functions of their parameters: the
    differentiable call ([self.policy(obs)], [self.qf(obs, actions)]) and
    the numpy-level queries ([get_action], [get_qval]). *)
Class Approximators (Obs Act : Type) := {
  policy_call : Params -> list Obs -> list Act;
  policy_get_action : Params -> list Obs -> list Act;
  qf_call : Params -> list Obs -> list Act -> Column;
  qf_get_qval : Params -> list Obs -> list Act -> Array
}.

(** Reverse-mode differentiation and the update methods ([optim.Adam], ...):
    [from_numpy] is the tensor torch makes of a numpy array
    ([Variable(torch.from_numpy(a)).type(torch.FloatTensor)]);
    [gradient f p] is the gradient of the scalar [f] at [p]; [um_step]
    is one [step()] of a method with its state, learning rate and weight
    decay on parameter values and their gradient. *)
Class Torch (M St : Type) := {
  from_numpy : Array -> Column;
  gradient : (Params -> R) -> Params -> Params;
  um_init : M -> St;
  um_step : M -> St -> R -> option R -> Params -> Params -> St * Params
}.

(** ** The trainer object *)

(** The arguments of [DDPG.__init__] other than [env], [policy], [qf], [es]. *)
Record Args (M : Type) := mkArgs {
  arg_batch_size : Z;
  arg_n_epochs : Z;
  arg_epoch_length : Z;
  arg_min_pool_size : Z;
  arg_replay_pool_size : Z;
  arg_discount : float;
  arg_max_path_length : Z;
  arg_qf_weight_decay : R;
  arg_qf_update_method : M;
  arg_qf_learning_rate : R;
  arg_policy_weight_decay : R;
  arg_policy_update_method : M;
  arg_policy_learning_rate : R;
  arg_eval_samples : Z;
  arg_soft_target : bool;
  arg_soft_target_tau : R;
  arg_n_updates_per_sample : Z;
  arg_scale_reward : R;
  arg_include_horizon_terminal_transitions : bool;
  arg_plot : bool;
  arg_pause_for_plot : bool
}.
Arguments mkArgs {M}.
Arguments arg_batch_size {M}.
Arguments arg_n_epochs {M}.
Arguments arg_epoch_length {M}.
Arguments arg_min_pool_size {M}.
Arguments arg_replay_pool_size {M}.
Arguments arg_discount {M}.
Arguments arg_max_path_length {M}.
Arguments arg_qf_weight_decay {M}.
Arguments arg_qf_update_method {M}.
Arguments arg_qf_learning_rate {M}.
Arguments arg_policy_weight_decay {M}.
Arguments arg_policy_update_method {M}.
Arguments arg_policy_learning_rate {M}.
Arguments arg_eval_samples {M}.
Arguments arg_soft_target {M}.
Arguments arg_soft_target_tau {M}.
Arguments arg_n_updates_per_sample {M}.
Arguments arg_scale_reward {M}.
Arguments arg_include_horizon_terminal_transitions {M}.
Arguments arg_plot {M}.
Arguments arg_pause_for_plot {M}.

(** The same arguments with another value for [soft_target]. *)
Definition with_soft_target {M : Type} (a : Args M) (b : bool) : Args M :=
  mkArgs (arg_batch_size a) (arg_n_epochs a) (arg_epoch_length a)
    (arg_min_pool_size a) (arg_replay_pool_size a) (arg_discount a)
    (arg_max_path_length a) (arg_qf_weight_decay a) (arg_qf_update_method a)
    (arg_qf_learning_rate a) (arg_policy_weight_decay a)
    (arg_policy_update_method a) (arg_policy_learning_rate a)
    (arg_eval_samples a) b (arg_soft_target_tau a)
    (arg_n_updates_per_sample a) (arg_scale_reward a)
    (arg_include_horizon_terminal_transitions a) (arg_plot a)
    (arg_pause_for_plot a).

(** The same arguments with another value for [policy_weight_decay]. *)
Definition with_policy_weight_decay {M : Type} (a : Args M) (w : R) : Args M :=
  mkArgs (arg_batch_size a) (arg_n_epochs a) (arg_epoch_length a)
    (arg_min_pool_size a) (arg_replay_pool_size a) (arg_discount a)
    (arg_max_path_length a) (arg_qf_weight_decay a) (arg_qf_update_method a)
    (arg_qf_learning_rate a) w
    (arg_policy_update_method a) (arg_policy_learning_rate a)
    (arg_eval_samples a) (arg_soft_target a) (arg_soft_target_tau a)
    (arg_n_updates_per_sample a) (arg_scale_reward a)
    (arg_include_horizon_terminal_transitions a) (arg_plot a)
    (arg_pause_for_plot a).

(** The scalar attributes that [__init__] stores on [self] and nothing
    assigns afterwards. *)
Record Hyper := mkHyper {
  observation_dim : Z;
  action_dim : Z;
  batch_size : Z;
  n_epoch : Z;
  epoch_length : Z;
  min_pool_size : Z;
  replay_pool_size : Z;
  discount : float;
  max_path_length : Z;
  qf_weight_decay : R;
  eval_samples : Z;
  soft_target_tau : R;
  n_updates_per_sample : Z;
  include_horizon_terminal_transitions : bool;
  plot : bool;
  pause_for_plot : bool;
  scale_reward : R
}.

(** The attributes of [self] that hold objects. *)
Record DDPG (M St : Type) := mkDDPG {
  hyper : Hyper;
  policy : Network;
  qf : Network;
  target_qf : Network;
  target_policy : Network;
  qf_optimizer : Optimizer M St;
  policy_optimizer : Optimizer M St;
  qf_loss_averages : list R;
  policy_surr_averages : list R;
  q_averages : list R;
  y_averages : list R;
  paths : list (list R);
  es_path_returns : list R;
  paths_samples_cnt : Z
}.
Arguments mkDDPG {M St}.
Arguments hyper {M St}.
Arguments policy {M St}.
Arguments qf {M St}.
Arguments target_qf {M St}.
Arguments target_policy {M St}.
Arguments qf_optimizer {M St}.
Arguments policy_optimizer {M St}.
Arguments qf_loss_averages {M St}.
Arguments policy_surr_averages {M St}.
Arguments q_averages {M St}.
Arguments y_averages {M St}.
Arguments paths {M St}.
Arguments es_path_returns {M St}.
Arguments paths_samples_cnt {M St}.

Section Assignments.
Context {M St : Type}.
Implicit Type s : DDPG M St.

Definition set_policy s (n : Network) : DDPG M St :=
  mkDDPG (hyper s) n (qf s) (target_qf s) (target_policy s)
    (qf_optimizer s) (policy_optimizer s) (qf_loss_averages s)
    (policy_surr_averages s) (q_averages s) (y_averages s) (paths s)
    (es_path_returns s) (paths_samples_cnt s).

Definition set_qf s (n : Network) : DDPG M St :=
  mkDDPG (hyper s) (policy s) n (target_qf s) (target_policy s)
    (qf_optimizer s) (policy_optimizer s) (qf_loss_averages s)
    (policy_surr_averages s) (q_averages s) (y_averages s) (paths s)
    (es_path_returns s) (paths_samples_cnt s).

Definition set_target_qf s (n : Network) : DDPG M St :=
  mkDDPG (hyper s) (policy s) (qf s) n (target_policy s)
    (qf_optimizer s) (policy_optimizer s) (qf_loss_averages s)
    (policy_surr_averages s) (q_averages s) (y_averages s) (paths s)
    (es_path_returns s) (paths_samples_cnt s).

Definition set_target_policy s (n : Network) : DDPG M St :=
  mkDDPG (hyper s) (policy s) (qf s) (target_qf s) n
    (qf_optimizer s) (policy_optimizer s) (qf_loss_averages s)
    (policy_surr_averages s) (q_averages s) (y_averages s) (paths s)
    (es_path_returns s) (paths_samples_cnt s).

Definition set_qf_optimizer s (o : Optimizer M St) : DDPG M St :=
  mkDDPG (hyper s) (policy s) (qf s) (target_qf s) (target_policy s)
    o (policy_optimizer s) (qf_loss_averages s)
    (policy_surr_averages s) (q_averages s) (y_averages s) (paths s)
    (es_path_returns s) (paths_samples_cnt s).

Definition set_policy_optimizer s (o : Optimizer M St) : DDPG M St :=
  mkDDPG (hyper s) (policy s) (qf s) (target_qf s) (target_policy s)
    (qf_optimizer s) o (qf_loss_averages s)
    (policy_surr_averages s) (q_averages s) (y_averages s) (paths s)
    (es_path_returns s) (paths_samples_cnt s).

Definition set_es_path_returns s (l : list R) : DDPG M St :=
  mkDDPG (hyper s) (policy s) (qf s) (target_qf s) (target_policy s)
    (qf_optimizer s) (policy_optimizer s) (qf_loss_averages s)
    (policy_surr_averages s) (q_averages s) (y_averages s) (paths s)
    l (paths_samples_cnt s).

(** Reading and writing a network object through a reference to it. *)
Definition get_net s (r : NetRef) : Network :=
  match r with
  | RefPolicy => policy s
  | RefQf => qf s
  | RefTargetPolicy => target_policy s
  | RefTargetQf => target_qf s
  end.

Definition set_net s (r : NetRef) (n : Network) : DDPG M St :=
  match r with
  | RefPolicy => set_policy s n
  | RefQf => set_qf s n
  | RefTargetPolicy => set_target_policy s n
  | RefTargetQf => set_target_qf s n
  end.

Definition set_opt_state (o : Optimizer M St) (st : St) : Optimizer M St :=
  mkOptimizer (opt_method o) (opt_params o) (opt_lr o)
    (opt_weight_decay o) st.
End Assignments.

(** ** Construction and the update step *)

Section Trainer.
Context {E X P G Obs Act M St : Type}.
Context {environment : Environment E Obs Act}.
Context {strategy : ExplorationStrategy X G Obs Act}.
Context {replay : ReplayPool P G Obs Act}.
Context {approximators : Approximators Obs Act}.
Context {torch : Torch M St}.

Implicit Type s : DDPG M St.

(** [DDPG.__init__].  [soft_target] and [policy_weight_decay] are
    accepted and not read; the policy optimiser is built with [lr] only. *)
Definition __init__ (env : E) (policy0 qf0 : Network) (a : Args M)
  : DDPG M St :=
  let h := mkHyper
    (np_prod (observation_space_shape env))
    (np_prod (action_space_shape env))
    (arg_batch_size a) (arg_n_epochs a) (arg_epoch_length a)
    (arg_min_pool_size a) (arg_replay_pool_size a) (arg_discount a)
    (arg_max_path_length a) (arg_qf_weight_decay a) (arg_eval_samples a)
    (arg_soft_target_tau a) (arg_n_updates_per_sample a)
    (arg_include_horizon_terminal_transitions a)
    (arg_plot a) (arg_pause_for_plot a) (arg_scale_reward a) in
  let target_qf0 := deepcopy qf0 in
  let target_policy0 := deepcopy policy0 in
  let qf_optimizer0 :=
    mkOptimizer (arg_qf_update_method a) RefQf (arg_qf_learning_rate a)
      (Some (qf_weight_decay h)) (um_init (arg_qf_update_method a)) in
  let policy_optimizer0 :=
    mkOptimizer (arg_policy_update_method a) RefPolicy
      (arg_policy_learning_rate a) None
      (um_init (arg_policy_update_method a)) in
  mkDDPG h policy0 qf0 target_qf0 target_policy0
    qf_optimizer0 policy_optimizer0 [] [] [] [] [] [] 0%Z.

(** [optimizer.zero_grad()]: clears the gradient buffers of the parameters
    the optimiser was given. *)
Definition zero_grad (o : Optimizer M St) s : DDPG M St :=
  let n := get_net s (opt_params o) in
  set_net s (opt_params o)
    (mkNetwork (param_values n) (option_map params_zero (grad n))).

(** [optimizer.step()]: updates the parameters the optimiser was given
    from their gradient buffers; parameters without a gradient are
    skipped.  Returns the optimiser with its new state. *)
Definition step (o : Optimizer M St) s : Optimizer M St * DDPG M St :=
  let n := get_net s (opt_params o) in
  match grad n with
  | None => (o, s)
  | Some g =>
      let '(st', v') :=
        um_step (opt_method o) (opt_state o) (opt_lr o)
          (opt_weight_decay o) (param_values n) g in
      (set_opt_state o st', set_net s (opt_params o) (set_param_values n v'))
  end.

(** The loss of [train_qf] as a function of the q-function's parameters. *)
Definition qf_loss (obs : list Obs) (acts : list Act) (expected_q : Column)
  (theta : Params) : R :=
  mse_loss (qf_call theta obs acts) expected_q.

(** [DDPG.train_qf] *)
Definition train_qf s (expected_qval : Array) (obs_val : list Obs)
  (actions_val : list Act) : DDPG M St :=
  let expected_q := from_numpy expected_qval in
  let loss := qf_loss obs_val actions_val expected_q in
  let s1 := zero_grad (qf_optimizer s) s in
  (* loss.backward() *)
  let s2 := set_qf s1
              (accumulate (qf s1) (gradient loss (param_values (qf s1)))) in
  let '(o, s3) := step (qf_optimizer s2) s2 in
  set_qf_optimizer s3 o.

(** [average_q] of [train_policy], as a function of the parameters of the
    policy and of the q-function it is built from. *)
Definition average_q (obs : list Obs) (theta_policy theta_qf : Params) : R :=
  - mean (qf_call theta_qf obs (policy_call theta_policy obs)).

(** [DDPG.train_policy].  [average_q.backward()] leaves a gradient on
    every parameter the value was computed from: those of the policy and
    those of the q-function. *)
Definition train_policy s (obs_val : list Obs) : DDPG M St :=
  let theta_policy := param_values (policy s) in
  let theta_qf := param_values (qf s) in
  let s1 := zero_grad (policy_optimizer s) s in
  (* average_q.backward() *)
  let s2 := set_policy s1
              (accumulate (policy s1)
                 (gradient (fun p => average_q obs_val p theta_qf)
                    theta_policy)) in
  let s3 := set_qf s2
              (accumulate (qf s2)
                 (gradient (fun q => average_q obs_val theta_policy q)
                    theta_qf)) in
  let '(o, s4) := step (policy_optimizer s3) s3 in
  set_policy_optimizer s4 o.

(** [next_qvals] of [do_training]: the target q-function at the next
    observations and the target policy's actions there. *)
Definition next_qvals s (batch : Batch Obs Act) : Array :=
  let next_obs := next_observations batch in
  let next_actions :=
    policy_get_action (param_values (target_policy s)) next_obs in
  qf_get_qval (param_values (target_qf s)) next_obs next_actions.

(** [ys] of [do_training]; [reshape(-1, 1)] makes columns of the rewards
    and of the mask and keeps their entries. *)
Definition ys s (batch : Batch Obs Act) : Array :=
  let rewards' := rewards batch in
  let terminals_mask := scalar_sub 1 (terminals batch) in
  col_add rewards'
    (col_mul (scalar_mul terminals_mask (discount (hyper s)))
       (next_qvals s batch)).

(** The two [set_param_values] calls that end [do_training]. *)
Definition soft_update_policy s : DDPG M St :=
  set_target_policy s
    (set_param_values (target_policy s)
       (running_average_tensor_list
          (get_param_values (target_policy s))
          (get_param_values (policy s))
          (soft_target_tau (hyper s)))).

Definition soft_update_qf s : DDPG M St :=
  set_target_qf s
    (set_param_values (target_qf s)
       (running_average_tensor_list
          (get_param_values (target_qf s))
          (get_param_values (qf s))
          (soft_target_tau (hyper s)))).

(** [DDPG.do_training] *)
Definition do_training s (itr : Z) (batch : Batch Obs Act) : DDPG M St :=
  let obs := observations batch in
  let acts := actions batch in
  let s1 := train_qf s (ys s batch) obs acts in
  let s2 := train_policy s1 obs in
  let s3 := soft_update_policy s2 in
  soft_update_qf s3.

(** ** The training loop *)

(** Calls on the collaborators, in the order [train] makes them. *)
Inductive Event :=
| CallPopulateTask
| CallEnvReset
| CallEsReset
| CallGetAction (itr : Z) (o : Obs)
| CallEnvStep (a : Act)
| CallRender
| CallAddSample (o : Obs) (a : Act) (r : R) (t : bool)
| CallRandomBatch (size : Z)
| CallDoTraining (itr : Z) (b : Batch Obs Act)
| CallSamplePaths (policy_params : Params) (max_samples max_path : Z)
| CallSaveItrParams (epoch : Z)
| CallEnvTerminate.

(** The trainer, the objects it drives and the local variables of
    [train]. *)
Record LoopState := mkLoop {
  self : DDPG M St;
  env : E;
  es : X;
  pool : P;
  rng : G;
  itr : Z;
  path_length : Z;
  path_return : R;
  terminal : bool;
  observation : Obs;
  log : list Event
}.

(** What one pass through lines 129-137 draws. *)
Record Transition := mkTransition {
  tr_observation : Obs;
  tr_action : Act;
  tr_reward : R;
  tr_terminal : bool;
  tr_next_observation : Obs
}.

(** Lines 119-127: the start of an episode. *)
Definition reset_episode (st : LoopState) : LoopState :=
  if terminal st then
    let '(env', o) := env_reset (env st) in
    mkLoop
      (set_es_path_returns (self st)
         (es_path_returns (self st) ++ [path_return st]))
      env' (es_reset (es st)) (pool st) (rng st) (itr st)
      0%Z 0 (terminal st) o
      (log st ++ [CallEnvReset; CallEsReset])
  else st.

(** Lines 129-137: choose an action, step the environment, count. *)
Definition interact (st : LoopState) : LoopState * Transition :=
  let '(es', rng', action) :=
    es_get_action (es st) (rng st) (itr st) (observation st)
      (param_values (policy (self st))) in
  let '(env', (next_observation, reward, terminal')) :=
    env_step (env st) action in
  let rendered := plot (hyper (self st)) in
  (mkLoop (self st)
     (if rendered then env_render env' else env')
     es' (pool st) rng' (itr st)
     (path_length st + 1)%Z (path_return st + reward) terminal'
     (observation st)
     (log st ++ [CallGetAction (itr st) (observation st); CallEnvStep action]
             ++ (if rendered then [CallRender] else [])),
   mkTransition (observation st) action reward terminal' next_observation).

(** [pool.add_sample(observation, action, reward * self.scale_reward,
    terminal)] *)
Definition store_sample (st : LoopState) (tr : Transition) (t : bool)
  : P * list Event :=
  let r := tr_reward tr * scale_reward (hyper (self st)) in
  (add_sample (pool st) (tr_observation tr) (tr_action tr) r t,
   [CallAddSample (tr_observation tr) (tr_action tr) r t]).

(** Lines 139-147: the horizon test and the insertion into the pool. *)
Definition store (st : LoopState) (tr : Transition) : LoopState :=
  let h := hyper (self st) in
  let '(terminal', (pool', calls)) :=
    if negb (terminal st) && (max_path_length h <=? path_length st)%Z then
      (true,
       if include_horizon_terminal_transitions h
       then store_sample st tr true
       else (pool st, []))
    else (terminal st, store_sample st tr (terminal st)) in
  mkLoop (self st) (env st) (es st) pool' (rng st) (itr st)
    (path_length st) (path_return st) terminal'
    (tr_next_observation tr) (log st ++ calls).

(** Lines 150-153, [n] passes of the [for update_itr] loop. *)
Fixpoint update_loop (n : nat) (st : LoopState) : LoopState :=
  match n with
  | O => st
  | S k =>
      let size := batch_size (hyper (self st)) in
      let '(pool', rng', batch) := random_batch (pool st) (rng st) size in
      update_loop k
        (mkLoop (do_training (self st) (itr st) batch)
           (env st) (es st) pool' rng' (itr st)
           (path_length st) (path_return st) (terminal st)
           (observation st)
           (log st ++ [CallRandomBatch size; CallDoTraining (itr st) batch]))
  end.

(** Lines 149-153. *)
Definition update (st : LoopState) : LoopState :=
  let h := hyper (self st) in
  if (min_pool_size h <=? pool_size (pool st))%Z
  then update_loop (Z.to_nat (n_updates_per_sample h)) st
  else st.

Definition next_itr (st : LoopState) : LoopState :=
  mkLoop (self st) (env st) (es st) (pool st) (rng st) (itr st + 1)%Z
    (path_length st) (path_return st) (terminal st) (observation st)
    (log st).

(** The state after the insertion of one environment step (lines
    119-147), and the whole body of the [for epoch_itr] loop. *)
Definition collect (st : LoopState) : LoopState :=
  let '(st1, tr) := interact (reset_episode st) in
  store st1 tr.

Definition train_step (st : LoopState) : LoopState :=
  next_itr (update (collect st)).

Fixpoint iterate (n : nat) (st : LoopState) : LoopState :=
  match n with
  | O => st
  | S k => iterate k (train_step st)
  end.

(** Lines 158-161: [evaluate] hands the policy's parameters to the
    parallel sampler and drops the paths; the snapshot goes to the
    logger. *)
Definition end_of_epoch (epoch : Z) (st : LoopState) : LoopState :=
  let h := hyper (self st) in
  if (min_pool_size h <=? pool_size (pool st))%Z then
    mkLoop (self st) (env st) (es st) (pool st) (rng st) (itr st)
      (path_length st) (path_return st) (terminal st) (observation st)
      (log st ++ [CallSamplePaths (get_param_values (policy (self st)))
                    (eval_samples h) (max_path_length h);
                  CallSaveItrParams epoch])
  else st.

Inductive exn := NameError | AssertionError.

Inductive result (A : Type) :=
| Ok (a : A)
| Raise (e : exn).
Arguments Ok {A}.
Arguments Raise {A}.

(** [pyprind.prog_bar(range(length))] (line 117): the progress bar refuses
    a range without elements with an [AssertionError], raised when the
    loop over it starts; over any other range the loop makes one pass per
    element. *)
Definition prog_bar (length : Z) : result nat :=
  if (length <=? 0)%Z then Raise AssertionError else Ok (Z.to_nat length).

(** The [for epoch] loop: [n] epochs starting at number [epoch]. *)
Fixpoint epochs (n : nat) (epoch : Z) (st : LoopState) : result LoopState :=
  match n with
  | O => Ok st
  | S k =>
      match prog_bar (epoch_length (hyper (self st))) with
      | Raise e => Raise e
      | Ok passes =>
          epochs k (epoch + 1)%Z (end_of_epoch epoch (iterate passes st))
      end
  end.

(** [DDPG.start_worker]: with [plot] set it names [plotter], which
    ddpg.py does not import. *)
Definition start_worker s (l : list Event) : result (list Event) :=
  let l1 := l ++ [CallPopulateTask] in
  if plot (hyper s) then Raise NameError else Ok l1.

(** The state in which the loops of [train] start. *)
Definition initial_state s (env0 : E) (es0 : X) (rng0 : G)
  (l : list Event) : LoopState :=
  let h := hyper s in
  let pool0 :=
    pool_new (replay_pool_size h) (observation_dim h) (action_dim h) in
  let '(env1, observation0) := env_reset env0 in
  mkLoop s env1 es0 pool0 rng0 0%Z 0%Z 0 false observation0
    (l ++ [CallEnvReset]).

(** [DDPG.train] *)
Definition train s (env0 : E) (es0 : X) (rng0 : G) : result LoopState :=
  match start_worker s [] with
  | Raise e => Raise e
  | Ok l =>
      match epochs (Z.to_nat (n_epoch (hyper s))) 0%Z
              (initial_state s env0 es0 rng0 l) with
      | Raise e => Raise e
      | Ok st =>
          Ok (mkLoop (self st) (env_terminate (env st)) (es st) (pool st)
                (rng st) (itr st) (path_length st) (path_return st)
                (terminal st) (observation st)
                (log st ++ [CallEnvTerminate]))
      end
  end.

(** ** Invariants of the trainer object *)

(** The optimisers hold the parameters of the live networks. *)
Definition well_bound s : Prop :=
  opt_params (qf_optimizer s) = RefQf /\
  opt_params (policy_optimizer s) = RefPolicy.

(** The trainer objects that [train] can hold: the constructed one, and
    what the assignments of the loop make of it. *)
Inductive reachable : DDPG M St -> Prop :=
| reach_init (env0 : E) (policy0 qf0 : Network) (a : Args M) :
    reachable (__init__ env0 policy0 qf0 a)
| reach_do_training s (i : Z) (b : Batch Obs Act) :
    reachable s -> reachable (do_training s i b)
| reach_es_path_returns s (l : list R) :
    reachable s -> reachable (set_es_path_returns s l).

(** The calls that [n] passes of the update loop make. *)
Fixpoint update_calls (n : nat) (p : P) (g : G) (size i : Z) : list Event :=
  match n with
  | O => []
  | S k =>
      let '(p', g', b) := random_batch p g size in
      CallRandomBatch size :: CallDoTraining i b
        :: update_calls k p' g' size i
  end.

(** The batches that [n] passes of the update loop draw: each from a new
    [random_batch] call on the pool and the random state the call before
    it left. *)
Fixpoint sampled_batches (n : nat) (p : P) (g : G) (size : Z)
  : list (Batch Obs Act) :=
  match n with
  | O => []
  | S k =>
      let '(p', g', b) := random_batch p g size in
      b :: sampled_batches k p' g' size
  end.

(** The calls made between two states of one run. *)
Definition calls_since (before after : LoopState) : list Event :=
  skipn (length (log before)) (log after).

Definition is_do_training (e : Event) : bool :=
  match e with CallDoTraining _ _ => true | _ => false end.

Definition is_add_sample (e : Event) : bool :=
  match e with CallAddSample _ _ _ _ => true | _ => false end.

Definition is_env_step (e : Event) : bool :=
  match e with CallEnvStep _ => true | _ => false end.

Definition is_env_reset (e : Event) : bool :=
  match e with CallEnvReset => true | _ => false end.

Definition is_es_reset (e : Event) : bool :=
  match e with CallEsReset => true | _ => false end.

Definition is_sample_paths (e : Event) : bool :=
  match e with CallSamplePaths _ _ _ => true | _ => false end.

Definition is_save_itr_params (e : Event) : bool :=
  match e with CallSaveItrParams _ => true | _ => false end.

Definition is_update_call (e : Event) : bool :=
  match e with
  | CallRandomBatch _ | CallDoTraining _ _ => true
  | _ => false
  end.

(** What an optimiser was constructed with. *)
Definition opt_settings (o : Optimizer M St) : M * NetRef * R * option R :=
  (opt_method o, opt_params o, opt_lr o, opt_weight_decay o).

(** How many calls of one kind a log holds. *)
Definition count (f : Event -> bool) (l : list Event) : nat :=
  length (filter f l).

(** The passes through the loop body that [train] makes: [range] of a
    number below 1 is empty. *)
Definition total_steps s : nat :=
  (Z.to_nat (n_epoch (hyper s)) * Z.to_nat (epoch_length (hyper s)))%nat.

(** The bound the loop keeps on the length of the current path: between
    passes the path is either not begun, or ended, or shorter than
    [max_path_length]. *)
Definition path_bounded (st : LoopState) : Prop :=
  let m := max_path_length (hyper (self st)) in
  (0 <= path_length st <= Z.max 1 m)%Z /\
  (path_length st = 0%Z \/ terminal st = true \/ (path_length st < m)%Z).
End Trainer.

Arguments Ok {A}.
Arguments Raise {A}.

(** ** A small concrete world

    A counter for an environment (the episode ends by itself at the sixth
    step), an exploration strategy that repeats the iteration number, a
    pool that keeps its samples in a list, and networks of one tensor. *)
Module Sample.

Definition sample : Type := (nat * nat * R * bool)%type.

#[global] Instance environment : Environment nat nat nat := {|
  observation_space_shape := fun _ => [3%Z];
  action_space_shape := fun _ => [2%Z];
  env_reset := fun _ => (O, O);
  env_step := fun e a => (S e, (S e, 3, Nat.eqb e 5));
  env_render := fun e => e;
  env_terminate := fun e => e
|}.

#[global] Instance strategy : ExplorationStrategy unit nat nat nat := {|
  es_reset := fun x => x;
  es_get_action := fun x g i o _ => (x, S g, Z.to_nat i)
|}.

Definition batch0 : Batch nat nat :=
  mkBatch [O; 1%nat] [O; O] [2%float; 3%float] [1%nat; 2%nat]
    [1%float; 0%float].

#[global] Instance replay : ReplayPool (list sample) nat nat nat := {|
  pool_new := fun _ _ _ => [];
  add_sample := fun p o a r t => p ++ [(o, a, r, t)];
  pool_size := fun p => Z.of_nat (length p);
  random_batch := fun p g _ => (p, S g, batch0)
|}.

#[global] Instance approximators : Approximators nat nat := {|
  policy_call := fun _ obs => obs;
  policy_get_action := fun _ obs => obs;
  qf_call := fun _ obs _ => map (fun _ => 5) obs;
  qf_get_qval := fun _ obs _ => map (fun _ => 5%float) obs
|}.

#[global] Instance torch : Torch unit unit := {|
  from_numpy := fun a => map (fun _ => 1) a;
  gradient := fun _ p => p;
  um_init := fun _ => tt;
  um_step := fun _ st _ _ p _ => (st, map (map (fun x => x + 1)) p)
|}.

Definition args : Args unit :=
  mkArgs 2%Z 1%Z 3%Z 0%Z 10%Z 0.5%float 1%Z 0 tt 1 7 tt 1 4%Z true (/ 4)
    2%Z 10 false false false.

Definition policy0 : Network := mkNetwork [[1; 2]] None.
Definition qf0 : Network := mkNetwork [[8]] None.

Definition trainer : DDPG unit unit := __init__ O policy0 qf0 args.

(** The loop state in which [train] enters its first epoch, and one in
    which the previous transition was terminal. *)
Definition World : Type :=
  LoopState (E := nat) (X := unit) (P := list sample) (G := nat)
    (Obs := nat) (Act := nat) (M := unit) (St := unit).

Definition start : World := initial_state trainer O tt O [].

Definition after_terminal : World :=
  mkLoop trainer 4%nat tt [] O 6%Z 4%Z 12 true 4%nat [].

(** A trainer that keeps horizon transitions and waits for five samples
    before it learns, one that is given no epoch, and a state in which the
    environment is about to end the episode by itself. *)
Definition args_keep : Args unit :=
  mkArgs 2%Z 1%Z 3%Z 5%Z 10%Z 0.5%float 1%Z 0 tt 1 7 tt 1 4%Z true (/ 4)
    2%Z 10 true false false.

Definition keeper : DDPG unit unit := __init__ O policy0 qf0 args_keep.

Definition start_keeper : World := initial_state keeper O tt O [].

Definition args_idle : Args unit :=
  mkArgs 2%Z 0%Z 3%Z 0%Z 10%Z 0.5%float 1%Z 0 tt 1 7 tt 1 4%Z true (/ 4)
    2%Z 10 false false false.

Definition idle : DDPG unit unit := __init__ O policy0 qf0 args_idle.

(** A target critic that has diverged: every q-value is infinite. *)
Definition diverged : Approximators nat nat := {|
  policy_call := fun _ obs => obs;
  policy_get_action := fun _ obs => obs;
  qf_call := fun _ obs _ => map (fun _ => 5) obs;
  qf_get_qval := fun _ obs _ => map (fun _ => infinity) obs
|}.

Definition at_end : World :=
  mkLoop trainer 5%nat tt [] O 5%Z 0%Z 0 false 5%nat [].

Definition args_plot : Args unit :=
  mkArgs 2%Z 1%Z 3%Z 0%Z 10%Z 0.5%float 1%Z 0 tt 1 7 tt 1 4%Z true (/ 4)
    2%Z 10 false true false.

(** One epoch of no pass. *)
Definition args_no_pass : Args unit :=
  mkArgs 2%Z 1%Z 0%Z 0%Z 10%Z 0.5%float 1%Z 0 tt 1 7 tt 1 4%Z true (/ 4)
    2%Z 10 false false false.

(** The sample trainer after one policy step: the critic's buffer holds the
    gradient that step left there. *)
Definition stepped : DDPG unit unit := train_policy trainer [O; 1%nat].

End Sample.

(** ** Properties *)

Section Properties.
Context {E X P G Obs Act M St : Type}.
Context {environment : Environment E Obs Act}.
Context {strategy : ExplorationStrategy X G Obs Act}.
Context {replay : ReplayPool P G Obs Act}.
Context {approximators : Approximators Obs Act}.
Context {torch : Torch M St}.

Implicit Type s : DDPG M St.
Implicit Type st : LoopState (E := E) (X := X) (P := P) (G := G)
                     (Obs := Obs) (Act := Act) (M := M) (St := St).

(** *** Lists *)

Lemma nth_error_zip_with {A B C : Type} (f : A -> B -> C) xs ys i x y :
  nth_error xs i = Some x ->
  nth_error ys i = Some y ->
  nth_error (zip_with f xs ys) i = Some (f x y).
Proof.
  revert ys i.
  induction xs as [|x0 xs IH]; intros [|y0 ys] [|i] Hx Hy;
    simpl in *; try discriminate.
  - congruence.
  - now apply IH.
Qed.

Lemma zip_with_snd (f : R -> R -> R) (xs ys : list R) :
  (forall a b, f a b = b) -> length xs = length ys -> zip_with f xs ys = ys.
Proof.
  intros Hf. revert ys.
  induction xs as [|x xs IH]; intros [|y ys] Hl; simpl in *;
    try discriminate; [reflexivity|].
  rewrite Hf, IH; [reflexivity | congruence].
Qed.

Lemma zip_with_fst (f : R -> R -> R) (xs ys : list R) :
  (forall a b, f a b = a) -> length xs = length ys -> zip_with f xs ys = xs.
Proof.
  intros Hf. revert ys.
  induction xs as [|x xs IH]; intros [|y ys] Hl; simpl in *;
    try discriminate; [reflexivity|].
  rewrite Hf, IH; [reflexivity | congruence].
Qed.

Lemma running_average_one first second :
  running_average 1 first second = second.
Proof. unfold running_average. ring. Qed.

Lemma running_average_zero first second :
  running_average 0 first second = first.
Proof. unfold running_average. ring. Qed.

Lemma running_average_tensor_list_one (target live : Params) :
  same_shape target live ->
  running_average_tensor_list target live 1 = live.
Proof.
  unfold running_average_tensor_list, running_average_tensor.
  induction 1 as [|t l ts ls Hl _ IH]; simpl; [reflexivity|].
  rewrite IH, zip_with_snd;
    [reflexivity | apply running_average_one | assumption].
Qed.

Lemma running_average_tensor_list_zero (target live : Params) :
  same_shape target live ->
  running_average_tensor_list target live 0 = target.
Proof.
  unfold running_average_tensor_list, running_average_tensor.
  induction 1 as [|t l ts ls Hl _ IH]; simpl; [reflexivity|].
  rewrite IH, zip_with_fst;
    [reflexivity | apply running_average_zero | assumption].
Qed.

Lemma entry_running_average (target live : Params) (rate : R) k j a b :
  entry live k j = Some a ->
  entry target k j = Some b ->
  entry (running_average_tensor_list target live rate) k j
  = Some (rate * a + (1 - rate) * b).
Proof.
  unfold entry, running_average_tensor_list.
  destruct (nth_error live k) as [l|] eqn:Hl; [|discriminate].
  destruct (nth_error target k) as [t|] eqn:Ht; [|discriminate].
  intros Ha Hb.
  rewrite (nth_error_zip_with _ _ _ _ _ _ Ht Hl).
  unfold running_average_tensor.
  now rewrite (nth_error_zip_with _ _ _ _ _ _ Hb Ha).
Qed.

(** *** What the optimisation steps leave alone *)

Lemma train_qf_frame s (y : Array) (obs : list Obs) (acts : list Act) :
  opt_params (qf_optimizer s) = RefQf ->
  let s' := train_qf s y obs acts in
  hyper s' = hyper s /\ policy s' = policy s /\
  target_qf s' = target_qf s /\ target_policy s' = target_policy s /\
  policy_optimizer s' = policy_optimizer s /\
  opt_params (qf_optimizer s') = RefQf /\
  es_path_returns s' = es_path_returns s.
Proof.
  intros Hq. unfold train_qf, zero_grad, step.
  rewrite Hq. simpl. rewrite Hq. simpl.
  destruct (um_step _ _ _ _ _ _) as [st' v']. simpl.
  repeat split; assumption.
Qed.

Lemma train_policy_frame s (obs : list Obs) :
  opt_params (policy_optimizer s) = RefPolicy ->
  let s' := train_policy s obs in
  hyper s' = hyper s /\ param_values (qf s') = param_values (qf s) /\
  target_qf s' = target_qf s /\ target_policy s' = target_policy s /\
  qf_optimizer s' = qf_optimizer s /\
  opt_params (policy_optimizer s') = RefPolicy /\
  es_path_returns s' = es_path_returns s.
Proof.
  intros Hp. unfold train_policy, zero_grad, step.
  rewrite Hp. simpl. rewrite Hp. simpl.
  destruct (um_step _ _ _ _ _ _) as [st' v']. simpl.
  repeat split; assumption.
Qed.

Lemma init_well_bound (env0 : E) (policy0 qf0 : Network) (a : Args M) :
  well_bound (__init__ env0 policy0 qf0 a).
Proof. split; reflexivity. Qed.

(** The update step on a trainer whose optimisers hold the live
    parameters: the targets are written by the running average alone. *)
Lemma do_training_effect s (i : Z) (b : Batch Obs Act) :
  well_bound s ->
  let s' := do_training s i b in
  well_bound s' /\ hyper s' = hyper s /\
  es_path_returns s' = es_path_returns s /\
  target_policy s'
  = set_param_values (target_policy s)
      (running_average_tensor_list (param_values (target_policy s))
         (param_values (policy s')) (soft_target_tau (hyper s))) /\
  target_qf s'
  = set_param_values (target_qf s)
      (running_average_tensor_list (param_values (target_qf s))
         (param_values (qf s')) (soft_target_tau (hyper s))).
Proof.
  intros [Hq Hp]. unfold do_training.
  destruct (train_qf_frame s (ys s b) (observations b) (actions b) Hq)
    as (Hh1 & Hpol1 & Htq1 & Htp1 & Hpo1 & Hqo1 & Hr1).
  set (s1 := train_qf s (ys s b) (observations b) (actions b)) in *.
  assert (Hp1 : opt_params (policy_optimizer s1) = RefPolicy)
    by (rewrite Hpo1; exact Hp).
  destruct (train_policy_frame s1 (observations b) Hp1)
    as (Hh2 & Hqf2 & Htq2 & Htp2 & Hqo2 & Hpo2 & Hr2).
  set (s2 := train_policy s1 (observations b)) in *.
  unfold soft_update_qf, soft_update_policy, well_bound, get_param_values.
  simpl.
  rewrite Hqo2, Hqo1, Hh2, Hh1, Hr2, Hr1, Htp2, Htp1, Htq2, Htq1.
  repeat split; assumption.
Qed.

Lemma reachable_well_bound s : reachable s -> well_bound s.
Proof.
  induction 1 as [env0 policy0 qf0 a | s i b _ IH | s l _ IH].
  - apply init_well_bound.
  - apply (do_training_effect s i b IH).
  - exact IH.
Qed.

(** *** The loop keeps the trainer among the reachable ones *)

Lemma reachable_update_loop (n : nat) st :
  reachable (self st) -> reachable (self (update_loop n st)).
Proof.
  revert st.
  induction n as [|n IH]; intros st Hr; simpl; [exact Hr|].
  destruct (random_batch (pool st) (rng st) (batch_size (hyper (self st))))
    as [[p' g'] b].
  apply IH. simpl. now apply reach_do_training.
Qed.

Lemma self_reset_episode st :
  self (reset_episode st)
  = if terminal st
    then set_es_path_returns (self st)
           (es_path_returns (self st) ++ [path_return st])
    else self st.
Proof.
  unfold reset_episode.
  destruct (terminal st); [|reflexivity].
  now destruct (env_reset (env st)).
Qed.

Lemma self_interact st : self (fst (interact st)) = self st.
Proof.
  unfold interact.
  destruct (es_get_action _ _ _ _ _) as [[x' g'] a].
  destruct (env_step _ _) as [e' [[o' r] t]].
  reflexivity.
Qed.

Lemma self_store st (tr : Transition) : self (store st tr) = self st.
Proof.
  unfold store.
  destruct (negb (terminal st) && _);
    [destruct (include_horizon_terminal_transitions _)|]; reflexivity.
Qed.

Lemma self_collect st : self (collect st) = self (reset_episode st).
Proof.
  unfold collect.
  pose proof (self_interact (reset_episode st)) as Hi.
  destruct (interact (reset_episode st)) as [st1 tr].
  rewrite self_store. exact Hi.
Qed.

Lemma reachable_train_step st :
  reachable (self st) -> reachable (self (train_step st)).
Proof.
  intros Hr. unfold train_step, next_itr, update. simpl.
  assert (Hc : reachable (self (collect st))).
  { rewrite self_collect, self_reset_episode.
    destruct (terminal st); [now apply reach_es_path_returns | exact Hr]. }
  destruct (_ <=? _)%Z; [now apply reachable_update_loop | exact Hc].
Qed.

Lemma reachable_iterate (n : nat) st :
  reachable (self st) -> reachable (self (iterate n st)).
Proof.
  revert st.
  induction n as [|n IH]; intros st Hr; simpl; [exact Hr|].
  apply IH. now apply reachable_train_step.
Qed.

Lemma reachable_epochs (n : nat) (epoch : Z) st st' :
  reachable (self st) -> epochs n epoch st = Ok st' -> reachable (self st').
Proof.
  revert epoch st.
  induction n as [|n IH]; intros epoch st Hr; simpl.
  - intros [= <-]. exact Hr.
  - destruct (prog_bar _) as [passes | e]; [|discriminate].
    apply IH. unfold end_of_epoch.
    destruct (_ <=? _)%Z; cbn [self]; now apply reachable_iterate.
Qed.

(** Every trainer object met in a run of [train] on a constructed trainer
    is a reachable one. *)
Lemma reachable_train s (env0 : E) (es0 : X) (rng0 : G) st :
  reachable s -> train s env0 es0 rng0 = Ok st -> reachable (self st).
Proof.
  intros Hr. unfold train, start_worker.
  destruct (plot (hyper s)); [discriminate|].
  destruct (epochs _ _ _) as [st1 | e] eqn:He; [|discriminate].
  intros [= <-]. cbn [self].
  refine (reachable_epochs _ _ _ st1 _ He).
  unfold initial_state. now destruct (env_reset env0).
Qed.

Lemma running_average_obeys_law (tau : R) (old live : Params) :
  soft_update_law tau old live (running_average_tensor_list old live tau).
Proof.
  split; [|split].
  - intros k j a b Ha Hb.
    rewrite (entry_running_average old live tau k j a b Ha Hb).
    split; [reflexivity|]. split; intros ->; f_equal; ring.
  - intros -> Hs. now apply running_average_tensor_list_one.
  - intros -> Hs. now apply running_average_tensor_list_zero.
Qed.

(** *** The update step *)

Lemma length_zip_with {A B C : Type} (f : A -> B -> C) xs ys :
  length xs = length ys -> length (zip_with f xs ys) = length xs.
Proof.
  revert ys.
  induction xs as [|x xs IH]; intros [|y ys] Hl; simpl in *;
    try discriminate; [reflexivity|].
  now rewrite IH; [|congruence].
Qed.

(** A zero times a finite number is a zero. *)
Lemma zero_times_finite (z x : float) (sz : bool) :
  Prim2SF z = S754_zero sz ->
  np_isfinite x = true ->
  exists sp, Prim2SF (z * x)%float = S754_zero sp.
Proof.
  unfold np_isfinite. intros Hz Hx.
  rewrite mul_spec, Hz.
  destruct (Prim2SF x) as [sx | sx | | sx mx ex]; try discriminate;
    eexists; reflexivity.
Qed.

(** Adding a zero gives the number back; only the sign of a negative zero
    can be lost. *)
Lemma plus_zero (r z : float) (sz : bool) :
  Prim2SF z = S754_zero sz ->
  (r + z)%float = r \/ (r = (-0)%float /\ (r + z)%float = 0%float).
Proof.
  intros Hz.
  assert (H : Prim2SF (r + z)%float = Prim2SF r \/
              (Prim2SF r = S754_zero true /\
               Prim2SF (r + z)%float = S754_zero false)).
  { rewrite add_spec, Hz.
    destruct (Prim2SF r) as [sr | sr | | sr mr er]; simpl; auto.
    destruct sr, sz; auto. }
  destruct H as [H | [H1 H2]].
  - left. now apply Prim2SF_inj.
  - right. split; apply Prim2SF_inj; [exact H1 | exact H2].
Qed.

(** C1: in [do_training] the critic is fitted to [ys]; on a batch whose
    reward, terminal and next-q columns have the same number of rows, [ys]
    has that many rows and its entry for transition [k] is the binary64
    value of [reward + (1 - terminal) * discount * next_q], where [next_q]
    is the target critic at the next observations and the target actor's
    actions there.  Where [terminal] is 1 and both the discount and
    [next_q] are finite, that entry is the stored reward (a reward of
    negative zero may come out as positive zero). *)
Theorem C1_regression_target
  s (i : Z) (batch : Batch Obs Act) (k : nat) (r t q : float) :
  length (terminals batch) = length (rewards batch) ->
  length (next_qvals s batch) = length (rewards batch) ->
  nth_error (rewards batch) k = Some r ->
  nth_error (terminals batch) k = Some t ->
  nth_error (next_qvals s batch) k = Some q ->
  do_training s i batch
  = soft_update_qf
      (soft_update_policy
         (train_policy
            (train_qf s (ys s batch) (observations batch) (actions batch))
            (observations batch))) /\
  next_qvals s batch
  = qf_get_qval (param_values (target_qf s)) (next_observations batch)
      (policy_get_action (param_values (target_policy s))
         (next_observations batch)) /\
  length (ys s batch) = length (rewards batch) /\
  nth_error (ys s batch) k
  = Some (r + (1 - t) * discount (hyper s) * q)%float /\
  (t = 1%float ->
   np_isfinite (discount (hyper s)) = true ->
   np_isfinite q = true ->
   nth_error (ys s batch) k = Some r \/
   (r = (-0)%float /\ nth_error (ys s batch) k = Some 0%float)).
Proof.
  intros Hlt Hlq Hr Ht Hq.
  assert (Hy : nth_error (ys s batch) k
               = Some (r + (1 - t) * discount (hyper s) * q)%float).
  { unfold ys, col_add, col_mul, scalar_mul, scalar_sub.
    apply nth_error_zip_with; [exact Hr|].
    apply nth_error_zip_with; [|exact Hq].
    rewrite !nth_error_map, Ht. reflexivity. }
  split; [reflexivity|]. split; [reflexivity|].
  split.
  { unfold ys, col_add, col_mul, scalar_mul, scalar_sub.
    apply length_zip_with.
    rewrite length_zip_with; rewrite !length_map; congruence. }
  split; [exact Hy|].
  intros -> Hd Hfq. rewrite Hy.
  destruct (zero_times_finite (1 - 1)%float (discount (hyper s)) false
              eq_refl Hd) as [s1 H1].
  destruct (zero_times_finite _ q s1 H1 Hfq) as [s2 H2].
  destruct (plus_zero r _ s2 H2) as [He | [Hz He]].
  - left. now rewrite He.
  - right. split; [exact Hz | now rewrite He].
Qed.

(** C2: every call of [do_training] on a trainer that [train] can hold
    ends by replacing the parameters of both target networks with the
    running average of their prior values and the live parameters as the
    gradient steps of this call left them, at rate [soft_target_tau]:
    entry by entry [tau * a + (1 - tau) * b]; at [tau = 1] the target
    becomes the live parameters, at [tau = 0] it keeps its values. *)
Theorem C2_soft_update s (i : Z) (batch : Batch Obs Act) :
  reachable s ->
  let s' := do_training s i batch in
  let tau := soft_target_tau (hyper s) in
  param_values (target_policy s')
  = running_average_tensor_list (param_values (target_policy s))
      (param_values (policy s')) tau /\
  param_values (target_qf s')
  = running_average_tensor_list (param_values (target_qf s))
      (param_values (qf s')) tau /\
  soft_update_law tau (param_values (target_policy s))
    (param_values (policy s')) (param_values (target_policy s')) /\
  soft_update_law tau (param_values (target_qf s))
    (param_values (qf s')) (param_values (target_qf s')).
Proof.
  intros Hr.
  destruct (do_training_effect s i batch (reachable_well_bound s Hr))
    as (_ & _ & _ & Hp & Hq).
  cbv zeta. rewrite Hp, Hq.
  change (param_values (set_param_values ?n ?v)) with v.
  split; [reflexivity|]. split; [reflexivity|].
  split; apply running_average_obeys_law.
Qed.

(** C9: [train_policy] on a trainer whose policy optimiser holds the
    policy's parameters makes one step of that optimiser on the gradient
    of [average_q] (minus the mean of the critic at the actor's actions):
    the values of the critic's parameters are what they were, and so are
    the critic's optimiser and both target networks; the policy's
    parameters are the optimiser's output. *)
Theorem C9_train_policy_keeps_critic s (obs : list Obs) :
  well_bound s ->
  let s' := train_policy s obs in
  let o := policy_optimizer s in
  let g := gradient (fun p => average_q obs p (param_values (qf s)))
             (param_values (policy s)) in
  param_values (qf s') = param_values (qf s) /\
  qf_optimizer s' = qf_optimizer s /\
  target_qf s' = target_qf s /\
  target_policy s' = target_policy s /\
  param_values (policy s')
  = snd (um_step (opt_method o) (opt_state o) (opt_lr o)
           (opt_weight_decay o) (param_values (policy s))
           match grad (policy s) with
           | None => g
           | Some old => params_add (params_zero old) g
           end).
Proof.
  intros [_ Hp].
  destruct (train_policy_frame s obs Hp)
    as (_ & Hqf & Htq & Htp & Hqo & _ & _).
  cbv zeta.
  split; [exact Hqf|]. split; [exact Hqo|].
  split; [exact Htq|]. split; [exact Htp|].
  unfold train_policy, zero_grad, step.
  rewrite Hp. simpl. rewrite Hp. simpl.
  destruct (grad (policy s)) as [old|]; simpl;
    destruct (um_step _ _ _ _ _ _) as [st' v']; reflexivity.
Qed.

(** C8: the constructor gives each target network the parameter values of
    the live network it copies, in an object of its own; on every trainer
    that [train] can hold the two optimisers hold the parameters of the
    live critic and the live policy, never a target's; the two gradient
    steps and the collection of a transition leave both target networks
    as they are, and [do_training] changes of a target network only its
    parameter values, to the running average of the soft update. *)
Theorem C8_targets_track_only :
  (forall (env0 : E) (policy0 qf0 : Network) (a : Args M),
      let s := __init__ env0 policy0 qf0 a in
      target_policy s = deepcopy policy0 /\
      target_qf s = deepcopy qf0 /\
      param_values (target_policy s) = param_values (policy s) /\
      param_values (target_qf s) = param_values (qf s)) /\
  (forall s, reachable s ->
      opt_params (qf_optimizer s) = RefQf /\
      opt_params (policy_optimizer s) = RefPolicy) /\
  (forall s y obs acts, well_bound s ->
      target_policy (train_qf s y obs acts) = target_policy s /\
      target_qf (train_qf s y obs acts) = target_qf s) /\
  (forall s obs, well_bound s ->
      target_policy (train_policy s obs) = target_policy s /\
      target_qf (train_policy s obs) = target_qf s) /\
  (forall st,
      target_policy (self (collect st)) = target_policy (self st) /\
      target_qf (self (collect st)) = target_qf (self st)) /\
  (forall s i b, reachable s ->
      let s' := do_training s i b in
      let tau := soft_target_tau (hyper s) in
      target_policy s'
      = set_param_values (target_policy s)
          (running_average_tensor_list (param_values (target_policy s))
             (param_values (policy s')) tau) /\
      target_qf s'
      = set_param_values (target_qf s)
          (running_average_tensor_list (param_values (target_qf s))
             (param_values (qf s')) tau)).
Proof.
  split; [|split; [|split; [|split; [|split]]]].
  - intros env0 policy0 qf0 a. cbv zeta.
    split; [reflexivity|]. split; [reflexivity|]. split; reflexivity.
  - intros s Hr. exact (reachable_well_bound s Hr).
  - intros s y obs acts [Hq _].
    destruct (train_qf_frame s y obs acts Hq) as (_ & _ & Htq & Htp & _).
    split; assumption.
  - intros s obs [_ Hp].
    destruct (train_policy_frame s obs Hp) as (_ & _ & Htq & Htp & _).
    split; assumption.
  - intros st. rewrite self_collect, self_reset_episode.
    destruct (terminal st); split; reflexivity.
  - intros s i b Hr.
    destruct (do_training_effect s i b (reachable_well_bound s Hr))
      as (_ & _ & _ & Hp & Hq).
    cbv zeta. split; assumption.
Qed.

(** *** The constructor *)

(** C4: what [__init__] gives the two optimisers.  The critic's is built
    with [qf_learning_rate] and [qf_weight_decay]; the policy's is built
    with [policy_learning_rate] and without a weight decay, whatever value
    [policy_weight_decay] has: the trainer built does not depend on it. *)
Theorem C4_policy_weight_decay_dropped
  (env0 : E) (policy0 qf0 : Network) (a : Args M) (w : R) :
  let s := __init__ env0 policy0 qf0 (with_policy_weight_decay a w) in
  opt_lr (qf_optimizer s) = arg_qf_learning_rate a /\
  opt_weight_decay (qf_optimizer s) = Some (arg_qf_weight_decay a) /\
  opt_lr (policy_optimizer s) = arg_policy_learning_rate a /\
  opt_weight_decay (policy_optimizer s) = None /\
  s = __init__ env0 policy0 qf0 a.
Proof.
  cbv zeta.
  split; [reflexivity|]. split; [reflexivity|].
  split; [reflexivity|]. split; reflexivity.
Qed.

(** C10: two argument lists that differ at most in [soft_target] build the
    same trainer, so [train] and [do_training] on the two trainers give
    the same results; and [do_training] ends with the soft update of both
    targets, with no test of any flag. *)
Theorem C10_soft_target_unused
  (env0 : E) (policy0 qf0 : Network) (a1 a2 : Args M) (es0 : X) (rng0 : G) :
  with_soft_target a1 true = with_soft_target a2 true ->
  let s1 : DDPG M St := __init__ env0 policy0 qf0 a1 in
  let s2 : DDPG M St := __init__ env0 policy0 qf0 a2 in
  s1 = s2 /\
  train s1 env0 es0 rng0 = train s2 env0 es0 rng0 /\
  (forall st, train_step (mkLoop s1 (env st) (es st) (pool st) (rng st)
                 (itr st) (path_length st) (path_return st) (terminal st)
                 (observation st) (log st))
              = train_step (mkLoop s2 (env st) (es st) (pool st) (rng st)
                 (itr st) (path_length st) (path_return st) (terminal st)
                 (observation st) (log st))) /\
  (forall i b, do_training s1 i b = do_training s2 i b) /\
  (forall s i b,
      do_training s i b
      = soft_update_qf
          (soft_update_policy
             (train_policy
                (train_qf s (ys s b) (observations b) (actions b))
                (observations b)))).
Proof.
  intros Ha. cbv zeta.
  assert (Hs : __init__ env0 policy0 qf0 a1 = __init__ env0 policy0 qf0 a2
               :> DDPG M St).
  { destruct a1, a2. unfold with_soft_target in Ha. simpl in Ha.
    injection Ha as -> -> -> -> -> -> -> -> -> -> -> -> -> -> -> -> -> ->
      -> ->.
    reflexivity. }
  rewrite Hs.
  split; [reflexivity|]. split; [reflexivity|].
  split; [reflexivity|]. split; reflexivity.
Qed.

(** *** One environment step *)

Lemma skipn_app_exact {A : Type} (l r : list A) :
  skipn (length l) (l ++ r) = r.
Proof. induction l as [|x l IH]; simpl; [reflexivity | exact IH]. Qed.

Lemma hyper_set_net s (r : NetRef) (n : Network) :
  hyper (set_net s r n) = hyper s.
Proof. destruct r; reflexivity. Qed.

Lemma hyper_step (o : Optimizer M St) s : hyper (snd (step o s)) = hyper s.
Proof.
  unfold step.
  destruct (grad (get_net s (opt_params o))) as [g|]; [|reflexivity].
  destruct (um_step _ _ _ _ _ _) as [st' v']. simpl.
  apply hyper_set_net.
Qed.

Lemma hyper_train_qf s (y : Array) (obs : list Obs) (acts : list Act) :
  hyper (train_qf s y obs acts) = hyper s.
Proof.
  unfold train_qf.
  match goal with |- context [step ?o ?t] =>
    pose proof (hyper_step o t) as Hs; destruct (step o t) as [o' s3]
  end.
  simpl in *. rewrite Hs. unfold zero_grad. apply hyper_set_net.
Qed.

Lemma hyper_train_policy s (obs : list Obs) :
  hyper (train_policy s obs) = hyper s.
Proof.
  unfold train_policy.
  match goal with |- context [step ?o ?t] =>
    pose proof (hyper_step o t) as Hs; destruct (step o t) as [o' s4]
  end.
  simpl in *. rewrite Hs. unfold zero_grad. apply hyper_set_net.
Qed.

Lemma hyper_soft_update s :
  hyper (soft_update_qf s) = hyper s /\
  hyper (soft_update_policy s) = hyper s.
Proof. split; reflexivity. Qed.

Lemma hyper_do_training s (i : Z) (b : Batch Obs Act) :
  hyper (do_training s i b) = hyper s.
Proof.
  unfold do_training. cbv zeta.
  rewrite (proj1 (hyper_soft_update _)), (proj2 (hyper_soft_update _)).
  now rewrite hyper_train_policy, hyper_train_qf.
Qed.

Lemma update_loop_log (n : nat) st :
  log (update_loop n st)
  = log st ++ update_calls n (pool st) (rng st)
                (batch_size (hyper (self st))) (itr st).
Proof.
  revert st.
  induction n as [|n IH]; intros st; simpl; [now rewrite app_nil_r|].
  destruct (random_batch (pool st) (rng st) (batch_size (hyper (self st))))
    as [[p' g'] b].
  rewrite IH. cbn [self pool rng itr log].
  rewrite hyper_do_training, <- app_assoc. reflexivity.
Qed.

Lemma update_calls_count (n : nat) (p : P) (g : G) (size i : Z) :
  length (filter is_do_training (update_calls n p g size i)) = n /\
  filter is_add_sample (update_calls n p g size i) = [].
Proof.
  revert p g.
  induction n as [|n IH]; intros p g; simpl; [now split|].
  destruct (random_batch p g size) as [[p' g'] b]. simpl.
  destruct (IH p' g') as [Hc Ha]. now rewrite Hc, Ha.
Qed.

Lemma interact_eq st :
  let chosen :=
    es_get_action (es st) (rng st) (itr st) (observation st)
      (param_values (policy (self st))) in
  let action := snd chosen in
  let stepped := env_step (env st) action in
  let reward := snd (fst (snd stepped)) in
  let rendered := plot (hyper (self st)) in
  interact st
  = (mkLoop (self st)
       (if rendered then env_render (fst stepped) else fst stepped)
       (fst (fst chosen)) (pool st) (snd (fst chosen)) (itr st)
       (path_length st + 1)%Z (path_return st + reward)
       (snd (snd stepped)) (observation st)
       (log st ++ [CallGetAction (itr st) (observation st);
                   CallEnvStep action]
               ++ (if rendered then [CallRender] else [])),
     mkTransition (observation st) action reward (snd (snd stepped))
       (fst (fst (snd stepped)))).
Proof.
  unfold interact.
  destruct (es_get_action _ _ _ _ _) as [[x' g'] a]. simpl.
  destruct (env_step _ _) as [e' [[o' r] t]]. reflexivity.
Qed.

Lemma collect_eq st :
  collect st
  = store (fst (interact (reset_episode st)))
      (snd (interact (reset_episode st))).
Proof.
  unfold collect. now destruct (interact (reset_episode st)).
Qed.

Lemma reset_episode_terminal st :
  terminal st = true ->
  reset_episode st
  = mkLoop
      (set_es_path_returns (self st)
         (es_path_returns (self st) ++ [path_return st]))
      (fst (env_reset (env st))) (es_reset (es st)) (pool st) (rng st)
      (itr st) 0%Z 0 true (snd (env_reset (env st)))
      (log st ++ [CallEnvReset; CallEsReset]).
Proof.
  intros Ht. unfold reset_episode. rewrite Ht.
  now destruct (env_reset (env st)).
Qed.

Lemma store_fields st (tr : Transition) :
  let st' := store st tr in
  self st' = self st /\ env st' = env st /\ es st' = es st /\
  rng st' = rng st /\ itr st' = itr st /\
  path_length st' = path_length st /\ path_return st' = path_return st /\
  observation st' = tr_next_observation tr /\
  exists calls, log st' = log st ++ calls.
Proof.
  unfold store.
  destruct (negb (terminal st) && _);
    [destruct (include_horizon_terminal_transitions _)|];
    simpl; repeat split; eexists; reflexivity.
Qed.

(** C6: a pass of the loop body that starts with [terminal] set (the
    previous transition ended an episode) first resets the environment
    and the exploration strategy, records the return of the finished path
    and sets [path_length] and [path_return] to 0; the action is then
    chosen by the reset strategy at the observation given by the reset;
    after the step [path_length] is 1 and [path_return] is the reward of
    that one step. *)
Theorem C6_reset_after_terminal st :
  terminal st = true ->
  let st0 := reset_episode st in
  let fresh := env_reset (env st) in
  let chosen :=
    es_get_action (es_reset (es st)) (rng st) (itr st) (snd fresh)
      (param_values (policy (self st))) in
  let tr := snd (interact st0) in
  path_length st0 = 0%Z /\ path_return st0 = 0 /\
  env st0 = fst fresh /\ observation st0 = snd fresh /\
  es st0 = es_reset (es st) /\
  es_path_returns (self st0) = es_path_returns (self st) ++ [path_return st] /\
  log st0 = log st ++ [CallEnvReset; CallEsReset] /\
  tr_observation tr = snd fresh /\
  tr_action tr = snd chosen /\
  (exists rest,
      log (collect st)
      = log st ++ [CallEnvReset; CallEsReset;
                   CallGetAction (itr st) (snd fresh);
                   CallEnvStep (snd chosen)] ++ rest) /\
  path_length (collect st) = 1%Z /\
  path_return (collect st) = 0 + tr_reward tr.
Proof.
  intros Ht. cbv zeta.
  rewrite collect_eq, (reset_episode_terminal st Ht).
  cbn [path_length path_return env observation es self log
       es_path_returns set_es_path_returns].
  do 7 (split; [reflexivity|]).
  match goal with |- context [interact ?x] =>
    destruct (store_fields (fst (interact x)) (snd (interact x)))
      as (_ & _ & _ & _ & _ & Hl & Hr & _ & calls & Hlog);
    rewrite Hl, Hr, Hlog; rewrite (interact_eq x)
  end.
  cbn [fst snd path_length path_return env observation es self log rng itr
       policy set_es_path_returns tr_observation tr_action tr_reward].
  split; [reflexivity|]. split; [reflexivity|].
  split; [|split; reflexivity].
  eexists. rewrite <- !app_assoc. simpl. reflexivity.
Qed.

Lemma hyper_reset_episode st :
  hyper (self (reset_episode st)) = hyper (self st).
Proof. rewrite self_reset_episode. now destruct (terminal st). Qed.

Lemma pool_before_store st :
  pool (fst (interact (reset_episode st))) = pool st.
Proof.
  rewrite interact_eq. cbn [fst pool].
  unfold reset_episode.
  destruct (terminal st); [|reflexivity].
  now destruct (env_reset (env st)).
Qed.

(** The two ways through lines 139-145. *)
Lemma store_cases st (tr : Transition) :
  let h := hyper (self st) in
  let r := tr_reward tr * scale_reward h in
  let o := tr_observation tr in
  let a := tr_action tr in
  (terminal st = false /\ (max_path_length h <= path_length st)%Z ->
   terminal (store st tr) = true /\
   pool (store st tr)
   = (if include_horizon_terminal_transitions h
      then add_sample (pool st) o a r true else pool st) /\
   log (store st tr)
   = log st ++ (if include_horizon_terminal_transitions h
                then [CallAddSample o a r true] else [])) /\
  (terminal st = true \/ (path_length st < max_path_length h)%Z ->
   terminal (store st tr) = terminal st /\
   pool (store st tr) = add_sample (pool st) o a r (terminal st) /\
   log (store st tr) = log st ++ [CallAddSample o a r (terminal st)]).
Proof.
  cbv zeta. unfold store, store_sample. split.
  - intros [Ht Hl]. rewrite Ht.
    apply Z.leb_le in Hl. rewrite Hl. simpl.
    destruct (include_horizon_terminal_transitions _); simpl;
      repeat split; reflexivity.
  - intros Hc.
    assert (Hb : negb (terminal st)
                 && (max_path_length (hyper (self st)) <=? path_length st)%Z
                 = false).
    { destruct Hc as [Ht | Hl]; [now rewrite Ht|].
      apply Z.leb_gt in Hl. rewrite Hl. apply andb_false_r. }
    rewrite Hb. simpl. repeat split; reflexivity.
Qed.

(** The samples added in one pass of the loop body are those of its
    insertion phase. *)
Lemma added_in_step st (stored : list Event) :
  log (collect st) = log (fst (interact (reset_episode st))) ++ stored ->
  filter is_add_sample (calls_since st (train_step st))
  = filter is_add_sample stored.
Proof.
  intros Hs.
  assert (Hpre : exists pre,
             log (fst (interact (reset_episode st))) = log st ++ pre /\
             filter is_add_sample pre = []).
  { rewrite interact_eq. cbn [fst log].
    unfold reset_episode.
    destruct (terminal st).
    - destruct (env_reset (env st)) as [e' o']. cbn [log].
      eexists. rewrite <- app_assoc. split; [reflexivity|].
      destruct (plot _); reflexivity.
    - eexists. split; [reflexivity|]. destruct (plot _); reflexivity. }
  destruct Hpre as (pre & Hpre & Hf).
  assert (Hupd : exists upd,
             log (train_step st) = log (collect st) ++ upd /\
             filter is_add_sample upd = []).
  { unfold train_step, next_itr, update. cbn [log].
    destruct (_ <=? _)%Z.
    - rewrite update_loop_log. eexists. split; [reflexivity|].
      apply update_calls_count.
    - exists []. now rewrite app_nil_r. }
  destruct Hupd as (upd & Hupd & Hu).
  unfold calls_since.
  rewrite Hupd, Hs, Hpre, <- !app_assoc, skipn_app_exact.
  now rewrite !filter_app, Hf, Hu, app_nil_r.
Qed.

(** C3: when the environment did not end the episode and the path length
    has reached [max_path_length], the loop sets [terminal] and adds the
    transition to the pool, marked terminal, exactly when
    [include_horizon_terminal_transitions] is set; when it is not set the
    pool is left as it was and the pass makes no [add_sample] call. *)
Theorem C3_horizon_transition st :
  let st1 := fst (interact (reset_episode st)) in
  let tr := snd (interact (reset_episode st)) in
  let h := hyper (self st) in
  let r := tr_reward tr * scale_reward h in
  let included := include_horizon_terminal_transitions h in
  tr_terminal tr = false ->
  (max_path_length h <= path_length st1)%Z ->
  terminal (collect st) = true /\
  pool (collect st)
  = (if included
     then add_sample (pool st) (tr_observation tr) (tr_action tr) r true
     else pool st) /\
  log (collect st)
  = log st1 ++ (if included
                then [CallAddSample (tr_observation tr) (tr_action tr) r true]
                else []) /\
  filter is_add_sample (calls_since st (train_step st))
  = (if included
     then [CallAddSample (tr_observation tr) (tr_action tr) r true]
     else []).
Proof.
  cbv zeta. intros Ht Hl.
  assert (Hterm : terminal (fst (interact (reset_episode st)))
                  = tr_terminal (snd (interact (reset_episode st))))
    by now rewrite interact_eq.
  assert (Hh : hyper (self (fst (interact (reset_episode st))))
               = hyper (self st))
    by now rewrite self_interact, hyper_reset_episode.
  destruct (store_cases (fst (interact (reset_episode st)))
              (snd (interact (reset_episode st)))) as [Hcase _].
  rewrite Hh, pool_before_store, <- collect_eq in Hcase.
  destruct Hcase as (H1 & H2 & H3); [split; [congruence | exact Hl]|].
  split; [exact H1|]. split; [exact H2|]. split; [exact H3|].
  rewrite (added_in_step st _ H3).
  now destruct (include_horizon_terminal_transitions _).
Qed.

(** C7: the only [add_sample] call a pass of the loop body can make
    stores the observation the action was chosen at, the action the
    exploration strategy returned, the environment's reward multiplied by
    [scale_reward], and the terminal flag as the loop holds it; the
    observation, the action and the flag are passed as they are. *)
Theorem C7_stored_reward_scaled st :
  let st0 := reset_episode st in
  let tr := snd (interact st0) in
  let h := hyper (self st) in
  let chosen :=
    es_get_action (es st0) (rng st0) (itr st0) (observation st0)
      (param_values (policy (self st0))) in
  let stepped := env_step (env st0) (snd chosen) in
  let r := tr_reward tr * scale_reward h in
  let t := terminal (collect st) in
  tr_observation tr = observation st0 /\
  tr_action tr = snd chosen /\
  tr_reward tr = snd (fst (snd stepped)) /\
  ((filter is_add_sample (calls_since st (train_step st))
    = [CallAddSample (tr_observation tr) (tr_action tr) r t] /\
    pool (collect st)
    = add_sample (pool st) (tr_observation tr) (tr_action tr) r t) \/
   (filter is_add_sample (calls_since st (train_step st)) = [] /\
    pool (collect st) = pool st)).
Proof.
  cbv zeta.
  split; [now rewrite interact_eq|].
  split; [now rewrite interact_eq|].
  split; [now rewrite interact_eq|].
  assert (Hh : hyper (self (fst (interact (reset_episode st))))
               = hyper (self st))
    by now rewrite self_interact, hyper_reset_episode.
  destruct (store_cases (fst (interact (reset_episode st)))
              (snd (interact (reset_episode st)))) as [Hhor Hord].
  rewrite Hh, pool_before_store, <- collect_eq in Hhor, Hord.
  destruct (terminal (fst (interact (reset_episode st)))) eqn:Ht.
  - destruct Hord as (H1 & H2 & H3); [now left|].
    left. rewrite H1. split; [|exact H2].
    now rewrite (added_in_step st _ H3).
  - destruct (Z_lt_le_dec
                (path_length (fst (interact (reset_episode st))))
                (max_path_length (hyper (self st)))) as [Hlt | Hle].
    + destruct Hord as (H1 & H2 & H3); [now right|].
      left. rewrite H1. split; [|exact H2].
      now rewrite (added_in_step st _ H3).
    + destruct Hhor as (H1 & H2 & H3); [now split|].
      rewrite (added_in_step st _ H3), H1, H2.
      destruct (include_horizon_terminal_transitions _);
        [left | right]; split; reflexivity.
Qed.

Lemma update_calls_batches (n : nat) (p : P) (g : G) (size i : Z) :
  update_calls n p g size i
  = flat_map (fun b => [CallRandomBatch size; CallDoTraining i b])
      (sampled_batches n p g size) /\
  length (sampled_batches n p g size) = n.
Proof.
  revert p g.
  induction n as [|n IH]; intros p g; simpl; [now split|].
  destruct (random_batch p g size) as [[p' g'] b]. simpl.
  destruct (IH p' g') as [Hc Hl]. now rewrite Hc, Hl.
Qed.

(** The update loop applies [do_training] to the trainer once per batch
    drawn, in the order drawn. *)
Lemma update_loop_self (n : nat) st :
  self (update_loop n st)
  = fold_left (fun s b => do_training s (itr st) b)
      (sampled_batches n (pool st) (rng st) (batch_size (hyper (self st))))
      (self st).
Proof.
  revert st.
  induction n as [|n IH]; intros st; simpl; [reflexivity|].
  destruct (random_batch (pool st) (rng st) (batch_size (hyper (self st))))
    as [[p' g'] b].
  rewrite IH. cbn [self pool rng itr fold_left].
  now rewrite hyper_do_training.
Qed.

(** C5: after the insertion phase of a pass, when the pool holds at least
    [min_pool_size] samples the loop makes [n_updates_per_sample] rounds
    (none for a count below 1), each a [random_batch(batch_size)] call
    followed by [do_training] on the batch that call returned: the trainer
    after the pass is the trainer before it with [do_training] applied
    once per batch drawn, in order.  When the pool holds fewer samples the
    pass makes no call at all there and the trainer is left as it is. *)
Theorem C5_updates_per_step st :
  let c := collect st in
  let h := hyper (self c) in
  let n := Z.to_nat (n_updates_per_sample h) in
  let calls := update_calls n (pool c) (rng c) (batch_size h) (itr c) in
  let batches := sampled_batches n (pool c) (rng c) (batch_size h) in
  train_step st = next_itr (update c) /\
  ((min_pool_size h <= pool_size (pool c))%Z ->
   update c = update_loop n c /\
   log (update c) = log c ++ calls /\
   length (filter is_do_training calls) = n /\
   ((0 <= n_updates_per_sample h)%Z ->
    Z.of_nat (length (filter is_do_training calls))
    = n_updates_per_sample h) /\
   calls
   = flat_map (fun b => [CallRandomBatch (batch_size h);
                         CallDoTraining (itr c) b]) batches /\
   length batches = n /\
   self (train_step st)
   = fold_left (fun s b => do_training s (itr c) b) batches (self c)) /\
  ((pool_size (pool c) < min_pool_size h)%Z ->
   update c = c /\ self (train_step st) = self c).
Proof.
  cbv zeta. split; [reflexivity|]. split.
  - intros Hge. apply Z.leb_le in Hge.
    assert (Hu : update (collect st)
                 = update_loop
                     (Z.to_nat
                        (n_updates_per_sample (hyper (self (collect st)))))
                     (collect st))
      by (unfold update; now rewrite Hge).
    split; [exact Hu|].
    split; [rewrite Hu; apply update_loop_log|].
    destruct (update_calls_count
                (Z.to_nat (n_updates_per_sample (hyper (self (collect st)))))
                (pool (collect st)) (rng (collect st))
                (batch_size (hyper (self (collect st))))
                (itr (collect st))) as [Hc _].
    destruct (update_calls_batches
                (Z.to_nat (n_updates_per_sample (hyper (self (collect st)))))
                (pool (collect st)) (rng (collect st))
                (batch_size (hyper (self (collect st))))
                (itr (collect st))) as [Hb Hl].
    split; [exact Hc|].
    split; [intros Hn; rewrite Hc; now apply Z2Nat.id|].
    split; [exact Hb|]. split; [exact Hl|].
    unfold train_step, next_itr. cbn [self].
    rewrite Hu. apply update_loop_self.
  - intros Hlt. apply Z.leb_gt in Hlt.
    assert (Hu : update (collect st) = collect st)
      by (unfold update; now rewrite Hlt).
    split; [exact Hu|].
    unfold train_step, next_itr. cbn [self]. now rewrite Hu.
Qed.

End Properties.

(** ** The properties on the sample world *)

(** Row 0 of the sample batch is terminal and the sample critic is finite:
    its target is its reward. *)
Lemma C1_regression_target_sample :
  length (terminals Sample.batch0) = length (rewards Sample.batch0) /\
  length (next_qvals Sample.trainer Sample.batch0)
  = length (rewards Sample.batch0) /\
  nth_error (rewards Sample.batch0) 0 = Some 2%float /\
  nth_error (terminals Sample.batch0) 0 = Some 1%float /\
  nth_error (next_qvals Sample.trainer Sample.batch0) 0 = Some 5%float /\
  np_isfinite (discount (hyper Sample.trainer)) = true /\
  np_isfinite 5%float = true /\
  nth_error (ys Sample.trainer Sample.batch0) 0 = Some 2%float.
Proof.
  do 7 (split; [reflexivity|]).
  destruct (C1_regression_target Sample.trainer 0%Z Sample.batch0 0
              2%float 1%float 5%float)
    as (_ & _ & _ & _ & Hone);
    [reflexivity | reflexivity | reflexivity | reflexivity | reflexivity |].
  destruct Hone as [Hy | [Hz _]];
    [reflexivity | reflexivity | reflexivity | exact Hy |].
  apply (f_equal is_zero) in Hz. cbv in Hz. discriminate Hz.
Defined.

(** With an infinite next q-value the target of the terminal row 0 of the
    sample batch is NaN, not its reward of 2: the mask 0 times infinity is
    NaN. *)
Lemma C1_terminal_target_nan :
  nth_error (rewards Sample.batch0) 0 = Some 2%float /\
  nth_error (terminals Sample.batch0) 0 = Some 1%float /\
  nth_error
    (next_qvals (approximators := Sample.diverged) Sample.trainer
       Sample.batch0) 0
  = Some infinity /\
  nth_error
    (ys (approximators := Sample.diverged) Sample.trainer Sample.batch0) 0
  = Some nan /\
  nth_error
    (ys (approximators := Sample.diverged) Sample.trainer Sample.batch0) 0
  <> Some 2%float.
Proof.
  do 4 (split; [reflexivity|]).
  intros H. apply (f_equal (option_map is_nan)) in H.
  cbv in H. discriminate H.
Qed.

(** The first update of the sample trainer moves the policy target a
    quarter of the way to the live parameters. *)
Lemma C2_soft_update_sample :
  reachable Sample.trainer /\
  entry (param_values
           (target_policy (do_training Sample.trainer 0%Z Sample.batch0)))
    0 1
  = Some (/ 4 * (2 + 1) + (1 - / 4) * 2).
Proof.
  split; [apply reach_init|].
  destruct (C2_soft_update Sample.trainer 0%Z Sample.batch0
              (reach_init 0%nat Sample.policy0 Sample.qf0 Sample.args))
    as (_ & _ & (Hentry & _) & _).
  apply (Hentry 0%nat 1%nat (2 + 1) 2); reflexivity.
Defined.

(** The first step of the sample run reaches the horizon of 1; the flag is
    off and the pool stays empty. *)
Lemma C3_horizon_transition_sample :
  tr_terminal (snd (interact (reset_episode Sample.start))) = false /\
  (max_path_length (hyper (self Sample.start))
   <= path_length (fst (interact (reset_episode Sample.start))))%Z /\
  terminal (collect Sample.start) = true /\
  pool (collect Sample.start) = [].
Proof.
  split; [reflexivity|]. split; [discriminate|].
  destruct (C3_horizon_transition Sample.start) as (Ht & Hp & _);
    [reflexivity | discriminate |].
  split; [exact Ht | exact Hp].
Defined.

(** A pass of the sample trainer on a pool of one sample: two updates, each
    moving the policy's parameters by the sample optimiser's step. *)
Lemma C5_updates_per_step_sample :
  pool (collect Sample.at_end) = [(5%nat, 5%nat, 3 * 10, true)] /\
  (min_pool_size (hyper (self (collect Sample.at_end)))
   <= pool_size (pool (collect Sample.at_end)))%Z /\
  self (train_step Sample.at_end)
  = do_training (do_training Sample.trainer 5%Z Sample.batch0) 5%Z
      Sample.batch0 /\
  param_values (policy (self (train_step Sample.at_end)))
  = [[1 + 1 + 1; 2 + 1 + 1]].
Proof.
  assert (Hge : (min_pool_size (hyper (self (collect Sample.at_end)))
                 <= pool_size (pool (collect Sample.at_end)))%Z)
    by discriminate.
  destruct (C5_updates_per_step Sample.at_end) as (_ & Hu & _).
  destruct (Hu Hge) as (_ & _ & _ & _ & _ & _ & Hs).
  split; [reflexivity|]. split; [exact Hge|].
  split; [exact Hs|].
  rewrite Hs. reflexivity.
Defined.

Lemma C6_reset_after_terminal_sample :
  terminal Sample.after_terminal = true /\
  path_length (reset_episode Sample.after_terminal) = 0%Z /\
  path_return (reset_episode Sample.after_terminal) = 0 /\
  path_length (collect Sample.after_terminal) = 1%Z.
Proof.
  split; [reflexivity|].
  destruct (C6_reset_after_terminal Sample.after_terminal eq_refl)
    as (Hl & Hr & _ & _ & _ & _ & _ & _ & _ & _ & Hl1 & _).
  split; [exact Hl|]. split; [exact Hr | exact Hl1].
Defined.

Lemma C8_targets_track_only_sample :
  reachable Sample.trainer /\
  opt_params (qf_optimizer Sample.trainer) = RefQf /\
  opt_params (policy_optimizer Sample.trainer) = RefPolicy.
Proof.
  split; [apply reach_init|].
  destruct (C8_targets_track_only
              (E := nat) (X := unit) (P := list Sample.sample) (G := nat))
    as (_ & Hb & _).
  apply Hb. apply reach_init.
Defined.

Lemma C9_train_policy_keeps_critic_sample :
  well_bound Sample.trainer /\
  param_values (qf (train_policy Sample.trainer [0%nat; 1%nat])) = [[8]].
Proof.
  split; [split; reflexivity|].
  destruct (C9_train_policy_keeps_critic Sample.trainer [0%nat; 1%nat])
    as (Hq & _); [split; reflexivity|].
  exact Hq.
Defined.

Lemma C10_soft_target_unused_sample :
  with_soft_target Sample.args true
  = with_soft_target (with_soft_target Sample.args false) true /\
  Sample.trainer
  = __init__ 0%nat Sample.policy0 Sample.qf0
      (with_soft_target Sample.args false).
Proof.
  split; [reflexivity|].
  destruct (C10_soft_target_unused 0%nat Sample.policy0 Sample.qf0
              Sample.args (with_soft_target Sample.args false) tt 0%nat)
    as (Hs & _); [reflexivity|].
  exact Hs.
Defined.

(** The sample trainer was built with [policy_weight_decay = 7]; its policy
    optimiser carries no weight decay, its critic optimiser carries the
    critic's. *)
Example policy_weight_decay_sample :
  arg_policy_weight_decay Sample.args = 7 /\
  opt_weight_decay (policy_optimizer Sample.trainer) = None /\
  opt_weight_decay (qf_optimizer Sample.trainer) = Some 0.
Proof. split; [reflexivity|]. split; reflexivity. Qed.

(** ** The run as a whole *)

Section Run.
Context {E X P G Obs Act M St : Type}.
Context {environment : Environment E Obs Act}.
Context {strategy : ExplorationStrategy X G Obs Act}.
Context {replay : ReplayPool P G Obs Act}.
Context {approximators : Approximators Obs Act}.
Context {torch : Torch M St}.

Implicit Type s : DDPG M St.
Implicit Type st : LoopState (E := E) (X := X) (P := P) (G := G)
                     (Obs := Obs) (Act := Act) (M := M) (St := St).
Implicit Type e : Event (Obs := Obs) (Act := Act).
Implicit Types l stored upd : list (Event (Obs := Obs) (Act := Act)).
Implicit Type f : Event (Obs := Obs) (Act := Act) -> bool.

(** *** What the steps keep of the trainer and of the loop variables *)

Lemma returns_set_net s (r : NetRef) (n : Network) :
  es_path_returns (set_net s r n) = es_path_returns s.
Proof. destruct r; reflexivity. Qed.

Lemma returns_step (o : Optimizer M St) s :
  es_path_returns (snd (step o s)) = es_path_returns s.
Proof.
  unfold step.
  destruct (grad (get_net s (opt_params o))) as [g|]; [|reflexivity].
  destruct (um_step _ _ _ _ _ _) as [st' v']. simpl.
  apply returns_set_net.
Qed.

Lemma returns_train_qf s (y : Array) (obs : list Obs) (acts : list Act) :
  es_path_returns (train_qf s y obs acts) = es_path_returns s.
Proof.
  unfold train_qf.
  match goal with |- context [step ?o ?t] =>
    pose proof (returns_step o t) as Hs; destruct (step o t) as [o' s3]
  end.
  simpl in *. rewrite Hs. unfold zero_grad. apply returns_set_net.
Qed.

Lemma returns_train_policy s (obs : list Obs) :
  es_path_returns (train_policy s obs) = es_path_returns s.
Proof.
  unfold train_policy.
  match goal with |- context [step ?o ?t] =>
    pose proof (returns_step o t) as Hs; destruct (step o t) as [o' s4]
  end.
  simpl in *. rewrite Hs. unfold zero_grad. apply returns_set_net.
Qed.

Lemma returns_soft_update s :
  es_path_returns (soft_update_qf s) = es_path_returns s /\
  es_path_returns (soft_update_policy s) = es_path_returns s.
Proof. split; reflexivity. Qed.

Lemma returns_do_training s (i : Z) (b : Batch Obs Act) :
  es_path_returns (do_training s i b) = es_path_returns s.
Proof.
  unfold do_training. cbv zeta.
  rewrite (proj1 (returns_soft_update _)), (proj2 (returns_soft_update _)).
  now rewrite returns_train_policy, returns_train_qf.
Qed.

Lemma update_loop_keeps (n : nat) st :
  let st' := update_loop n st in
  hyper (self st') = hyper (self st) /\
  es_path_returns (self st') = es_path_returns (self st) /\
  env st' = env st /\ es st' = es st /\ itr st' = itr st /\
  path_length st' = path_length st /\ path_return st' = path_return st /\
  terminal st' = terminal st /\ observation st' = observation st.
Proof.
  revert st.
  induction n as [|n IH]; intros st; cbv zeta; simpl;
    [repeat split; reflexivity|].
  destruct (random_batch (pool st) (rng st) (batch_size (hyper (self st))))
    as [[p' g'] b].
  match goal with |- context [update_loop n ?x] =>
    destruct (IH x) as (H1 & H2 & H3 & H4 & H5 & H6 & H7 & H8 & H9)
  end.
  cbn [self env es itr path_length path_return terminal observation] in *.
  rewrite H1, H2, H3, H4, H5, H6, H7, H8, H9.
  rewrite hyper_do_training, returns_do_training.
  repeat split; reflexivity.
Qed.

Lemma update_keeps st :
  let st' := update st in
  hyper (self st') = hyper (self st) /\
  es_path_returns (self st') = es_path_returns (self st) /\
  env st' = env st /\ es st' = es st /\ itr st' = itr st /\
  path_length st' = path_length st /\ path_return st' = path_return st /\
  terminal st' = terminal st /\ observation st' = observation st.
Proof.
  unfold update.
  destruct (_ <=? _)%Z; [apply update_loop_keeps|].
  cbv zeta. repeat split; reflexivity.
Qed.

Lemma collect_keeps st :
  let st0 := reset_episode st in
  let tr := snd (interact st0) in
  itr (collect st) = itr st /\
  hyper (self (collect st)) = hyper (self st) /\
  path_length (collect st) = (path_length st0 + 1)%Z /\
  path_return (collect st) = path_return st0 + tr_reward tr /\
  observation (collect st) = tr_next_observation tr.
Proof.
  cbv zeta. rewrite collect_eq.
  destruct (store_fields (fst (interact (reset_episode st)))
              (snd (interact (reset_episode st))))
    as (Hs & _ & _ & _ & Hi & Hl & Hr & Ho & _).
  rewrite Hs, Hi, Hl, Hr, Ho, self_interact, hyper_reset_episode.
  rewrite (interact_eq (reset_episode st)).
  cbn [fst snd itr path_length path_return tr_reward].
  repeat split; try reflexivity.
  unfold reset_episode.
  destruct (terminal st); [|reflexivity].
  now destruct (env_reset (env st)).
Qed.

(** *** The calls of one pass *)

Lemma filter_none f l :
  (forall e, In e l -> f e = false) -> filter f l = [].
Proof.
  induction l as [|e l IH]; intros Hf; simpl; [reflexivity|].
  rewrite (Hf e (or_introl eq_refl)). apply IH.
  intros e' He'. apply Hf. now right.
Qed.

Lemma update_calls_kind (n : nat) (p : P) (g : G) (size i : Z) :
  forall e, In e (update_calls n p g size i) -> is_update_call e = true.
Proof.
  revert p g.
  induction n as [|n IH]; intros p g e; simpl; [contradiction|].
  destruct (random_batch p g size) as [[p' g'] b].
  intros [<- | [<- | He]]; [reflexivity | reflexivity | now apply (IH p' g')].
Qed.

(** The calls of one pass through the loop body, in their order. *)
Lemma train_step_log st :
  let st0 := reset_episode st in
  let tr := snd (interact st0) in
  exists stored upd,
    log (train_step st)
    = log st
      ++ (if terminal st then [CallEnvReset; CallEsReset] else [])
      ++ [CallGetAction (itr st) (tr_observation tr);
          CallEnvStep (tr_action tr)]
      ++ (if plot (hyper (self st)) then [CallRender] else [])
      ++ stored ++ upd /\
    log (collect st) = log (fst (interact st0)) ++ stored /\
    (stored = [] \/
     exists o a r t, stored = [CallAddSample o a r t]) /\
    (forall e, In e upd -> is_update_call e = true).
Proof.
  cbv zeta.
  assert (Hst : exists stored,
             log (collect st)
             = log (fst (interact (reset_episode st))) ++ stored /\
             (stored = [] \/
              exists o a r t, stored = [CallAddSample o a r t])).
  { rewrite collect_eq. unfold store, store_sample.
    destruct (negb _ && _);
      [destruct (include_horizon_terminal_transitions _)|];
      cbn [log]; eexists; (split; [reflexivity|]);
      try (now left); right; do 4 eexists; reflexivity. }
  destruct Hst as (stored & Hst & Hkind).
  assert (Hupd : exists upd,
             log (train_step st) = log (collect st) ++ upd /\
             forall e, In e upd -> is_update_call e = true).
  { unfold train_step, next_itr, update. cbn [log].
    destruct (_ <=? _)%Z.
    - rewrite update_loop_log. eexists. split; [reflexivity|].
      apply update_calls_kind.
    - exists []. rewrite app_nil_r. split; [reflexivity | contradiction]. }
  destruct Hupd as (upd & Hupd & Hu).
  exists stored, upd.
  split; [|split; [exact Hst | split; [exact Hkind | exact Hu]]].
  rewrite Hupd, Hst, (interact_eq (reset_episode st)).
  cbn [fst snd log tr_observation tr_action].
  rewrite hyper_reset_episode.
  unfold reset_episode.
  destruct (terminal st).
  - destruct (env_reset (env st)) as [e' o'].
    cbn [log itr observation es rng self policy set_es_path_returns].
    now rewrite <- !app_assoc.
  - now rewrite <- !app_assoc.
Qed.

Lemma count_app f l (r : list Event) :
  count f (l ++ r) = (count f l + count f r)%nat.
Proof. unfold count. now rewrite filter_app, length_app. Qed.

Lemma count_update_calls f upd :
  (forall e, is_update_call e = true -> f e = false) ->
  (forall e, In e upd -> is_update_call e = true) ->
  count f upd = 0%nat.
Proof.
  intros Hf Hu. unfold count.
  rewrite filter_none; [reflexivity|].
  intros e He. apply Hf, Hu, He.
Qed.

Lemma count_env_step_train_step st :
  count is_env_step (log (train_step st))
  = S (count is_env_step (log st)).
Proof.
  destruct (train_step_log st) as (stored & upd & Hlog & _ & Hkind & Hu).
  rewrite Hlog, !count_app.
  rewrite (count_update_calls is_env_step upd); [|now intros [] | exact Hu].
  assert (Hs : count is_env_step stored = 0%nat)
    by (destruct Hkind as [-> | (o & a & r & t & ->)]; reflexivity).
  rewrite Hs.
  destruct (terminal st), (plot (hyper (self st)));
    unfold count; simpl; lia.
Qed.

Lemma count_es_reset_train_step st :
  count is_es_reset (log (train_step st))
  = (count is_es_reset (log st) + (if terminal st then 1 else 0))%nat.
Proof.
  destruct (train_step_log st) as (stored & upd & Hlog & _ & Hkind & Hu).
  rewrite Hlog, !count_app.
  rewrite (count_update_calls is_es_reset upd); [|now intros [] | exact Hu].
  assert (Hs : count is_es_reset stored = 0%nat)
    by (destruct Hkind as [-> | (o & a & r & t & ->)]; reflexivity).
  rewrite Hs.
  destruct (terminal st), (plot (hyper (self st)));
    unfold count; simpl; lia.
Qed.

Lemma count_epoch_calls_train_step st :
  count is_sample_paths (log (train_step st))
  = count is_sample_paths (log st) /\
  count is_save_itr_params (log (train_step st))
  = count is_save_itr_params (log st).
Proof.
  destruct (train_step_log st) as (stored & upd & Hlog & _ & Hkind & Hu).
  rewrite Hlog, !count_app.
  rewrite (count_update_calls is_sample_paths upd);
    [|now intros [] | exact Hu].
  rewrite (count_update_calls is_save_itr_params upd);
    [|now intros [] | exact Hu].
  assert (Hs : count is_sample_paths stored = 0%nat /\
               count is_save_itr_params stored = 0%nat)
    by (destruct Hkind as [-> | (o & a & r & t & ->)]; split; reflexivity).
  destruct Hs as [-> ->].
  destruct (terminal st), (plot (hyper (self st)));
    unfold count; simpl; split; lia.
Qed.

(** *** One pass, then many *)

Lemma path_length_reset_episode st :
  path_length (reset_episode st)
  = if terminal st then 0%Z else path_length st.
Proof.
  unfold reset_episode.
  destruct (terminal st); [|reflexivity].
  now destruct (env_reset (env st)).
Qed.

Lemma collect_terminal st :
  terminal (collect st) = true \/
  (path_length (collect st) < max_path_length (hyper (self st)))%Z.
Proof.
  assert (Hh : hyper (self (fst (interact (reset_episode st))))
               = hyper (self st))
    by now rewrite self_interact, hyper_reset_episode.
  destruct (store_fields (fst (interact (reset_episode st)))
              (snd (interact (reset_episode st))))
    as (_ & _ & _ & _ & _ & Hl & _).
  destruct (store_cases (fst (interact (reset_episode st)))
              (snd (interact (reset_episode st)))) as [Hhor Hord].
  rewrite Hh, <- collect_eq in Hhor, Hord.
  rewrite <- collect_eq in Hl.
  destruct (terminal (fst (interact (reset_episode st)))) eqn:Ht.
  - destruct Hord as (H1 & _); [now left|]. left. exact H1.
  - destruct (Z_lt_le_dec
                (path_length (fst (interact (reset_episode st))))
                (max_path_length (hyper (self st)))) as [Hlt | Hle].
    + right. now rewrite Hl.
    + destruct Hhor as (H1 & _); [now split|]. left. exact H1.
Qed.

Lemma train_step_keeps st :
  hyper (self (train_step st)) = hyper (self st) /\
  itr (train_step st) = (itr st + 1)%Z /\
  path_length (train_step st)
  = ((if terminal st then 0 else path_length st) + 1)%Z /\
  (terminal (train_step st) = true \/
   (path_length (train_step st) < max_path_length (hyper (self st)))%Z) /\
  length (es_path_returns (self (train_step st)))
  = (length (es_path_returns (self st))
     + (if terminal st then 1 else 0))%nat.
Proof.
  unfold train_step, next_itr.
  cbn [self itr path_length terminal].
  destruct (update_keeps (collect st))
    as (Hh & Hr & _ & _ & Hi & Hl & _ & Ht & _).
  destruct (collect_keeps st) as (Hci & Hch & Hcl & _).
  rewrite Hh, Hr, Hi, Hl, Ht, Hch, Hci, Hcl, path_length_reset_episode.
  split; [reflexivity|]. split; [reflexivity|]. split; [reflexivity|].
  split.
  - rewrite <- path_length_reset_episode, <- Hcl. apply collect_terminal.
  - rewrite self_collect, self_reset_episode.
    destruct (terminal st); cbn [es_path_returns set_es_path_returns].
    + now rewrite length_app.
    + now rewrite Nat.add_0_r.
Qed.

Lemma path_bounded_train_step st :
  path_bounded st -> path_bounded (train_step st).
Proof.
  unfold path_bounded. cbv zeta.
  destruct (train_step_keeps st) as (Hh & _ & Hl & Ht & _).
  rewrite Hh, Hl. rewrite Hl in Ht.
  intros [Hb Hc]. split; [|right; exact Ht].
  destruct (terminal st); [lia|].
  destruct Hc as [H0 | [Hf | Hlt]]; [lia | discriminate | lia].
Qed.

(** What [n] passes through the loop body add up to. *)
Lemma iterate_run (n : nat) st :
  let st' := iterate n st in
  hyper (self st') = hyper (self st) /\
  itr st' = (itr st + Z.of_nat n)%Z /\
  count is_env_step (log st') = (count is_env_step (log st) + n)%nat /\
  count is_sample_paths (log st') = count is_sample_paths (log st) /\
  count is_save_itr_params (log st') = count is_save_itr_params (log st) /\
  (length (es_path_returns (self st')) + count is_es_reset (log st)
   = length (es_path_returns (self st)) + count is_es_reset (log st'))%nat /\
  (path_bounded st -> path_bounded st').
Proof.
  revert st.
  induction n as [|n IH]; intros st; cbv zeta.
  - simpl. split; [reflexivity|]. split; [lia|]. split; [lia|].
    split; [reflexivity|]. split; [reflexivity|]. split; [lia | auto].
  - change (iterate (S n) st) with (iterate n (train_step st)).
    destruct (IH (train_step st)) as (H1 & H2 & H3 & H4 & H5 & H6 & H7).
    destruct (train_step_keeps st) as (K1 & K2 & _ & _ & K5).
    destruct (count_epoch_calls_train_step st) as [C1 C2].
    rewrite H1, H2, H3, H4, H5, K1, K2, C1, C2, count_env_step_train_step.
    rewrite K5, count_es_reset_train_step in H6.
    split; [reflexivity|]. split; [lia|]. split; [lia|].
    split; [reflexivity|]. split; [reflexivity|]. split; [lia|].
    intros Hb. apply H7. now apply path_bounded_train_step.
Qed.

Lemma count_env_reset_train_step st :
  count is_env_reset (log (train_step st))
  = (count is_env_reset (log st) + (if terminal st then 1 else 0))%nat.
Proof.
  destruct (train_step_log st) as (stored & upd & Hlog & _ & Hkind & Hu).
  rewrite Hlog, !count_app.
  rewrite (count_update_calls is_env_reset upd); [|now intros [] | exact Hu].
  assert (Hs : count is_env_reset stored = 0%nat)
    by (destruct Hkind as [-> | (o & a & r & t & ->)]; reflexivity).
  rewrite Hs.
  destruct (terminal st), (plot (hyper (self st)));
    unfold count; simpl; lia.
Qed.

Lemma iterate_resets (n : nat) st :
  (count is_env_reset (log (iterate n st)) + count is_es_reset (log st)
   = count is_env_reset (log st) + count is_es_reset (log (iterate n st)))%nat
  /\ exists calls, log (iterate n st) = log st ++ calls.
Proof.
  revert st.
  induction n as [|n IH]; intros st.
  - simpl. split; [lia|]. exists []. now rewrite app_nil_r.
  - change (iterate (S n) st) with (iterate n (train_step st)).
    destruct (IH (train_step st)) as (Hc & calls & Hl).
    rewrite count_env_reset_train_step, count_es_reset_train_step in Hc.
    split; [lia|].
    destruct (train_step_log st) as (stored & upd & Hlog & _).
    rewrite Hl, Hlog, <- app_assoc. eexists. reflexivity.
Qed.

(** The end of an epoch: evaluation and snapshot come together or not at
    all, and touch nothing else. *)
Lemma end_of_epoch_keeps (epoch : Z) st :
  let st' := end_of_epoch epoch st in
  self st' = self st /\ itr st' = itr st /\
  path_length st' = path_length st /\ terminal st' = terminal st /\
  count is_env_step (log st') = count is_env_step (log st) /\
  count is_env_reset (log st') = count is_env_reset (log st) /\
  count is_es_reset (log st') = count is_es_reset (log st) /\
  (exists calls, log st' = log st ++ calls) /\
  exists k, (k <= 1)%nat /\
    count is_sample_paths (log st')
    = (count is_sample_paths (log st) + k)%nat /\
    count is_save_itr_params (log st')
    = (count is_save_itr_params (log st) + k)%nat.
Proof.
  cbv zeta. unfold end_of_epoch.
  destruct (_ <=? _)%Z; cbn [self itr path_length terminal log].
  - rewrite !count_app.
    do 4 (split; [reflexivity|]).
    split; [unfold count; simpl; lia|].
    split; [unfold count; simpl; lia|].
    split; [unfold count; simpl; lia|].
    split; [eexists; reflexivity|].
    exists 1%nat. split; [lia|]. split; reflexivity.
  - do 7 (split; [reflexivity|]).
    split; [exists []; now rewrite app_nil_r|].
    exists 0%nat. split; [lia|]. split; lia.
Qed.

Lemma path_bounded_end_of_epoch (epoch : Z) st :
  path_bounded st -> path_bounded (end_of_epoch epoch st).
Proof.
  unfold path_bounded. cbv zeta.
  destruct (end_of_epoch_keeps epoch st) as (Hs & _ & Hl & Ht & _).
  now rewrite Hs, Hl, Ht.
Qed.

(** What [n] epochs add up to. *)
Lemma epochs_run (n : nat) (epoch : Z) st st' :
  epochs n epoch st = Ok st' ->
  let len := Z.to_nat (epoch_length (hyper (self st))) in
  hyper (self st') = hyper (self st) /\
  itr st' = (itr st + Z.of_nat (n * len))%Z /\
  count is_env_step (log st')
  = (count is_env_step (log st) + n * len)%nat /\
  (exists k, (k <= n)%nat /\
     count is_sample_paths (log st')
     = (count is_sample_paths (log st) + k)%nat /\
     count is_save_itr_params (log st')
     = (count is_save_itr_params (log st) + k)%nat) /\
  (length (es_path_returns (self st')) + count is_es_reset (log st)
   = length (es_path_returns (self st)) + count is_es_reset (log st'))%nat /\
  (count is_env_reset (log st') + count is_es_reset (log st)
   = count is_env_reset (log st) + count is_es_reset (log st'))%nat /\
  (exists calls, log st' = log st ++ calls) /\
  (path_bounded st -> path_bounded st').
Proof.
  revert epoch st.
  induction n as [|n IH]; intros epoch st Hrun; cbv zeta.
  - simpl in Hrun. injection Hrun as <-.
    simpl. split; [reflexivity|]. split; [lia|]. split; [lia|].
    split; [exists 0%nat; lia|]. split; [lia|]. split; [lia|].
    split; [exists []; now rewrite app_nil_r | auto].
  - cbn [epochs] in Hrun. unfold prog_bar in Hrun.
    destruct (epoch_length (hyper (self st)) <=? 0)%Z; [discriminate|].
    set (len := Z.to_nat (epoch_length (hyper (self st)))) in *.
    destruct (iterate_run len st) as (I1 & I2 & I3 & I4 & I5 & I6 & I7).
    destruct (iterate_resets len st) as (I8 & c1 & I9).
    set (st1 := iterate len st) in *.
    destruct (end_of_epoch_keeps epoch st1)
      as (E1 & E2 & E3 & E4 & E5 & E6 & E7 & (c2 & E8) & k1 & Ek & E9 & E10).
    destruct (IH (epoch + 1)%Z (end_of_epoch epoch st1) Hrun)
      as (H1 & H2 & H3 & (k & Hk & H4 & H5) & H6 & H7 & (c3 & H8) & H9).
    set (st2 := end_of_epoch epoch st1) in *.
    rewrite E1 in H1, H2, H3, H6.
    rewrite I1 in H1, H2, H3.
    fold len in H2, H3.
    split; [exact H1|]. split; [lia|]. split; [lia|].
    split; [exists (k1 + k)%nat; lia|].
    split; [lia|]. split; [lia|].
    split; [rewrite H8, E8, I9, <- !app_assoc; eexists; reflexivity|].
    intros Hb. apply H9, path_bounded_end_of_epoch, I7, Hb.
Qed.

(** With a positive [epoch_length] every epoch runs; without one the first
    epoch stops at its progress bar. *)
Lemma epochs_returns (n : nat) (epoch : Z) st :
  (0 < epoch_length (hyper (self st)))%Z ->
  exists st', epochs n epoch st = Ok st'.
Proof.
  revert epoch st.
  induction n as [|n IH]; intros epoch st Hpos; simpl.
  - now exists st.
  - unfold prog_bar.
    destruct (Z.leb_spec (epoch_length (hyper (self st))) 0) as [Hle | _];
      [lia|].
    apply IH.
    destruct (end_of_epoch_keeps epoch
                (iterate (Z.to_nat (epoch_length (hyper (self st)))) st))
      as (E1 & _).
    destruct (iterate_run (Z.to_nat (epoch_length (hyper (self st)))) st)
      as (I1 & _).
    now rewrite E1, I1.
Qed.

Lemma epochs_raises (n : nat) (epoch : Z) st :
  (epoch_length (hyper (self st)) <= 0)%Z ->
  epochs (S n) epoch st = Raise AssertionError.
Proof.
  intros Hle. cbn [epochs]. unfold prog_bar.
  apply Z.leb_le in Hle. now rewrite Hle.
Qed.

(** *** The whole of [train] *)

Lemma initial_state_eq s (env0 : E) (es0 : X) (rng0 : G) l :
  initial_state s env0 es0 rng0 l
  = mkLoop s (fst (env_reset env0)) es0
      (pool_new (replay_pool_size (hyper s)) (observation_dim (hyper s))
         (action_dim (hyper s)))
      rng0 0%Z 0%Z 0 false (snd (env_reset env0)) (l ++ [CallEnvReset]).
Proof. unfold initial_state. now destruct (env_reset env0). Qed.

Lemma path_bounded_initial s (env0 : E) (es0 : X) (rng0 : G) l :
  path_bounded (initial_state s env0 es0 rng0 l).
Proof.
  rewrite initial_state_eq. unfold path_bounded. cbn [path_length].
  split; [lia | now left].
Qed.

(** A run of [train] without plotting and with passes to make in each of
    its epochs returns, and these are its totals. *)
Lemma train_run s (env0 : E) (es0 : X) (rng0 : G) :
  plot (hyper s) = false ->
  (0 < epoch_length (hyper s) \/ n_epoch (hyper s) <= 0)%Z ->
  exists st,
    train s env0 es0 rng0 = Ok st /\
    hyper (self st) = hyper s /\
    itr st = Z.of_nat (total_steps s) /\
    count is_env_step (log st) = total_steps s /\
    (exists k, (k <= Z.to_nat (n_epoch (hyper s)))%nat /\
       count is_sample_paths (log st) = k /\
       count is_save_itr_params (log st) = k) /\
    length (es_path_returns (self st))
    = (length (es_path_returns s) + count is_es_reset (log st))%nat /\
    count is_env_reset (log st) = S (count is_es_reset (log st)) /\
    (exists calls,
        log st = [CallPopulateTask; CallEnvReset] ++ calls
                   ++ [CallEnvTerminate]) /\
    path_bounded st.
Proof.
  intros Hplot Hlen. unfold train, start_worker. rewrite Hplot.
  assert (Hret : exists st,
             epochs (Z.to_nat (n_epoch (hyper s))) 0%Z
               (initial_state s env0 es0 rng0 ([] ++ [CallPopulateTask]))
             = Ok st).
  { destruct Hlen as [Hpos | Hnone].
    - apply epochs_returns. now rewrite initial_state_eq.
    - replace (Z.to_nat (n_epoch (hyper s))) with 0%nat by lia.
      eexists. reflexivity. }
  destruct Hret as (st & Hst). rewrite Hst.
  eexists. split; [reflexivity|].
  cbn [self itr log path_length terminal].
  destruct (epochs_run (Z.to_nat (n_epoch (hyper s))) 0%Z
              (initial_state s env0 es0 rng0 ([] ++ [CallPopulateTask]))
              st Hst)
    as (H1 & H2 & H3 & (k & Hk & H4 & H5) & H6 & H7 & (calls & H8) & H9).
  pose proof (path_bounded_initial s env0 es0 rng0
                ([] ++ [CallPopulateTask])) as Hb.
  apply H9 in Hb.
  rewrite initial_state_eq in H1, H2, H3, H4, H5, H6, H7, H8.
  cbn [self itr log] in H1, H2, H3, H4, H5, H6, H7, H8.
  unfold count in H3, H4, H5, H6, H7. simpl in H3, H4, H5, H6, H7.
  fold (count is_env_step (log st)) in H3.
  fold (count is_sample_paths (log st)) in H4.
  fold (count is_save_itr_params (log st)) in H5.
  fold (count is_es_reset (log st)) in H6, H7.
  fold (count is_env_reset (log st)) in H7.
  rewrite !count_app. unfold count at 2 4 6 8 10 12. simpl.
  split; [exact H1|]. split; [exact H2|].
  split; [unfold total_steps; lia|].
  split; [exists k; split; [exact Hk|]; split; lia|].
  split; [lia|]. split; [lia|].
  split.
  - exists calls. rewrite H8. simpl. reflexivity.
  - unfold path_bounded in *. exact Hb.
Qed.

(** X1: how [train] ends on a constructed trainer.  With [plot] set it
    stops in [start_worker] with a [NameError] ([plotter] is not imported),
    before any pass of the loop.  Without [plot], with an epoch to run
    and an [epoch_length] below 1, it stops with the [AssertionError] of
    the progress bar when the first epoch starts.  Without [plot], and
    with a positive [epoch_length] or no epoch to run, it returns. *)
Theorem train_plot_name_error
  (env0 : E) (policy0 qf0 : Network) (a : Args M) (es0 : X) (rng0 : G) :
  let s : DDPG M St := __init__ env0 policy0 qf0 a in
  (arg_plot a = true -> train s env0 es0 rng0 = Raise NameError) /\
  (arg_plot a = false ->
   (0 < arg_n_epochs a)%Z -> (arg_epoch_length a <= 0)%Z ->
   train s env0 es0 rng0 = Raise AssertionError) /\
  (arg_plot a = false ->
   (0 < arg_epoch_length a \/ arg_n_epochs a <= 0)%Z ->
   exists st, train s env0 es0 rng0 = Ok st).
Proof.
  cbv zeta. split; [|split].
  - intros Hp. unfold train, start_worker. cbn [hyper __init__ plot].
    now rewrite Hp.
  - intros Hp Hn Hl. unfold train, start_worker.
    cbn [hyper __init__ plot n_epoch]. rewrite Hp.
    destruct (Z.to_nat (arg_n_epochs a)) as [|n] eqn:Hk; [lia|].
    rewrite epochs_raises; [reflexivity|].
    rewrite initial_state_eq. exact Hl.
  - intros Hp Hl.
    destruct (train_run (__init__ env0 policy0 qf0 a) env0 es0 rng0 Hp Hl)
      as (st & Hst & _).
    now exists st.
Qed.

(** X2: a run of [train] that returns (no [plot], and a positive
    [epoch_length] or no epoch to run) makes [n_epoch * epoch_length]
    passes through the loop body, none when [n_epoch] is below 1: that
    many [env.step] calls, and [itr] ends at that number; the scalar
    settings of the trainer are those it started with. *)
Theorem train_step_total s (env0 : E) (es0 : X) (rng0 : G) :
  plot (hyper s) = false ->
  (0 < epoch_length (hyper s) \/ n_epoch (hyper s) <= 0)%Z ->
  exists st,
    train s env0 es0 rng0 = Ok st /\
    hyper (self st) = hyper s /\
    itr st = Z.of_nat (total_steps s) /\
    count is_env_step (log st) = total_steps s.
Proof.
  intros Hp Hl.
  destruct (train_run s env0 es0 rng0 Hp Hl)
    as (st & H0 & H1 & H2 & H3 & _).
  exists st. now repeat split.
Qed.

(** X3: between passes the length of the current path is at least 0 and at
    most [max_path_length] (at most 1 when that is below 1), after any
    number of whole epochs and passes of a run; and once a pass has run,
    either [terminal] is set or the path is shorter than
    [max_path_length]. *)
Theorem path_length_bounded
  s (env0 : E) (es0 : X) (rng0 : G) l (n k : nat) (epoch : Z) st1 :
  epochs n epoch (initial_state s env0 es0 rng0 l) = Ok st1 ->
  let st := iterate k st1 in
  (0 <= path_length st <= Z.max 1 (max_path_length (hyper s)))%Z /\
  (terminal (train_step st) = true \/
   (path_length (train_step st) < max_path_length (hyper s))%Z).
Proof.
  intros Hrun. cbv zeta.
  set (st0 := initial_state s env0 es0 rng0 l) in *.
  destruct (epochs_run n epoch st0 st1 Hrun)
    as (H1 & _ & _ & _ & _ & _ & _ & H9).
  destruct (iterate_run k st1) as (I1 & _ & _ & _ & _ & _ & I7).
  assert (Hs : hyper (self st0) = hyper s)
    by (unfold st0; now rewrite initial_state_eq).
  assert (Hb : path_bounded (iterate k st1))
    by (apply I7, H9, path_bounded_initial).
  destruct Hb as [Hb _]. rewrite I1, H1, Hs in Hb.
  split; [exact Hb|].
  destruct (train_step_keeps (iterate k st1)) as (_ & _ & _ & Ht & _).
  now rewrite I1, H1, Hs in Ht.
Qed.

(** X4: over a run that returns, the environment is reset once at the
    start and once more for every reset of the exploration strategy, and
    [es_path_returns] gains one entry per such reset: a path that is still
    open, or that ended on the last pass, leaves no entry. *)
Theorem train_resets_and_returns s (env0 : E) (es0 : X) (rng0 : G) :
  plot (hyper s) = false ->
  (0 < epoch_length (hyper s) \/ n_epoch (hyper s) <= 0)%Z ->
  exists st,
    train s env0 es0 rng0 = Ok st /\
    count is_env_reset (log st) = S (count is_es_reset (log st)) /\
    length (es_path_returns (self st))
    = (length (es_path_returns s) + count is_es_reset (log st))%nat.
Proof.
  intros Hp Hl.
  destruct (train_run s env0 es0 rng0 Hp Hl)
    as (st & H0 & _ & _ & _ & _ & H5 & H6 & _).
  exists st. now repeat split.
Qed.

(** X5: over a run that returns, the sampler is asked for evaluation paths
    exactly as often as a snapshot is saved, and at most once per epoch. *)
Theorem train_evaluations s (env0 : E) (es0 : X) (rng0 : G) :
  plot (hyper s) = false ->
  (0 < epoch_length (hyper s) \/ n_epoch (hyper s) <= 0)%Z ->
  exists st,
    train s env0 es0 rng0 = Ok st /\
    count is_sample_paths (log st) = count is_save_itr_params (log st) /\
    (count is_save_itr_params (log st) <= Z.to_nat (n_epoch (hyper s)))%nat.
Proof.
  intros Hp Hl.
  destruct (train_run s env0 es0 rng0 Hp Hl)
    as (st & H0 & _ & _ & _ & (k & Hk & H4 & H5) & _).
  exists st. rewrite H4, H5. now repeat split.
Qed.

(** X6: the calls of a run that returns start with [populate_task] and the
    first [env.reset], and end with [env.terminate]; a run that stops at
    the progress bar returns no state, and [env.terminate] is not
    reached. *)
Theorem train_first_and_last_calls s (env0 : E) (es0 : X) (rng0 : G) :
  plot (hyper s) = false ->
  ((0 < epoch_length (hyper s) \/ n_epoch (hyper s) <= 0)%Z ->
   exists st calls,
     train s env0 es0 rng0 = Ok st /\
     log st
     = [CallPopulateTask; CallEnvReset] ++ calls ++ [CallEnvTerminate]) /\
  ((epoch_length (hyper s) <= 0 /\ 0 < n_epoch (hyper s))%Z ->
   train s env0 es0 rng0 = Raise AssertionError).
Proof.
  intros Hp. split.
  - intros Hl.
    destruct (train_run s env0 es0 rng0 Hp Hl)
      as (st & H0 & _ & _ & _ & _ & _ & _ & (calls & H7) & _).
    exists st, calls. now split.
  - intros [Hl Hn]. unfold train, start_worker. rewrite Hp.
    destruct (Z.to_nat (n_epoch (hyper s))) as [|n] eqn:Hk; [lia|].
    rewrite epochs_raises; [reflexivity|].
    rewrite initial_state_eq. exact Hl.
Qed.

(** X7: with [n_epoch] below 1, [train] resets the environment, terminates
    it and returns the trainer as it was: no action is chosen, nothing is
    stored, nothing is learnt. *)
Theorem train_without_epochs s (env0 : E) (es0 : X) (rng0 : G) :
  (n_epoch (hyper s) <= 0)%Z ->
  plot (hyper s) = false ->
  train s env0 es0 rng0
  = Ok (mkLoop s (env_terminate (fst (env_reset env0))) es0
          (pool_new (replay_pool_size (hyper s)) (observation_dim (hyper s))
             (action_dim (hyper s)))
          rng0 0%Z 0%Z 0 false (snd (env_reset env0))
          [CallPopulateTask; CallEnvReset; CallEnvTerminate]).
Proof.
  intros Hn Hp. unfold train, start_worker. rewrite Hp.
  replace (Z.to_nat (n_epoch (hyper s))) with 0%nat by lia.
  cbn [epochs]. rewrite initial_state_eq. reflexivity.
Qed.

(** *** Single passes *)

(** X8: a pass that leaves the pool with fewer than [min_pool_size] samples
    learns nothing: both live networks, both targets and both optimisers
    are what they were, and the pass makes no [random_batch] and no
    [do_training] call. *)
Theorem no_update_before_min_pool_size st :
  (pool_size (pool (collect st)) < min_pool_size (hyper (self st)))%Z ->
  let s' := self (train_step st) in
  policy s' = policy (self st) /\ qf s' = qf (self st) /\
  target_policy s' = target_policy (self st) /\
  target_qf s' = target_qf (self st) /\
  qf_optimizer s' = qf_optimizer (self st) /\
  policy_optimizer s' = policy_optimizer (self st) /\
  filter is_update_call (calls_since st (train_step st)) = [].
Proof.
  intros Hlt. cbv zeta.
  destruct (collect_keeps st) as (_ & Hh & _).
  assert (Hu : update (collect st) = collect st).
  { unfold update. rewrite Hh.
    apply Z.leb_gt in Hlt. now rewrite Hlt. }
  assert (Hs : self (train_step st) = self (reset_episode st)).
  { unfold train_step, next_itr. cbn [self].
    now rewrite Hu, self_collect. }
  rewrite Hs, self_reset_episode.
  split; [now destruct (terminal st)|]. split; [now destruct (terminal st)|].
  split; [now destruct (terminal st)|]. split; [now destruct (terminal st)|].
  split; [now destruct (terminal st)|]. split; [now destruct (terminal st)|].
  destruct (train_step_log st) as (stored & upd & _ & Hst & Hkind & _).
  unfold calls_since, train_step, next_itr. cbn [log].
  rewrite Hu, Hst, (interact_eq (reset_episode st)).
  cbn [fst log].
  assert (Hpre : exists pre,
             log (reset_episode st) = log st ++ pre /\
             filter is_update_call pre = []).
  { unfold reset_episode. destruct (terminal st).
    - destruct (env_reset (env st)). cbn [log]. eexists.
      split; reflexivity.
    - exists []. now rewrite app_nil_r. }
  destruct Hpre as (pre & -> & Hpre).
  rewrite <- !app_assoc, skipn_app_exact, !filter_app, Hpre.
  destruct Hkind as [-> | (o & a & r & t & ->)];
    destruct (plot _); reflexivity.
Qed.

(** X9: a pass that starts inside an episode ([terminal] not set) resets
    nothing: the action is chosen at the current observation, the path
    length grows by 1, the path return by the environment's reward as it
    is (not scaled), and no path return is recorded. *)
Theorem pass_inside_episode st :
  terminal st = false ->
  let chosen :=
    es_get_action (es st) (rng st) (itr st) (observation st)
      (param_values (policy (self st))) in
  let stepped := env_step (env st) (snd chosen) in
  reset_episode st = st /\
  path_length (train_step st) = (path_length st + 1)%Z /\
  path_return (train_step st) = path_return st + snd (fst (snd stepped)) /\
  observation (train_step st) = fst (fst (snd stepped)) /\
  es_path_returns (self (train_step st)) = es_path_returns (self st) /\
  count is_env_reset (log (train_step st)) = count is_env_reset (log st) /\
  count is_es_reset (log (train_step st)) = count is_es_reset (log st).
Proof.
  intros Ht. cbv zeta.
  assert (Hr : reset_episode st = st)
    by (unfold reset_episode; now rewrite Ht).
  split; [exact Hr|].
  destruct (update_keeps (collect st))
    as (_ & Hret & _ & _ & _ & Hl & Hpr & _ & Ho).
  destruct (collect_keeps st) as (_ & _ & Hcl & Hcr & Hco).
  pose proof (count_env_reset_train_step st) as Ce.
  pose proof (count_es_reset_train_step st) as Cs.
  rewrite Ht in Ce, Cs.
  split; [|split; [|split; [|split; [|split; lia]]]];
    unfold train_step, next_itr;
    cbn [self path_length path_return observation].
  - now rewrite Hl, Hcl, Hr.
  - rewrite Hpr, Hcr, Hr, (interact_eq st). reflexivity.
  - rewrite Ho, Hco, Hr, (interact_eq st). reflexivity.
  - now rewrite Hret, self_collect, Hr.
Qed.

(** X10: with [include_horizon_terminal_transitions] set, every pass adds
    exactly one sample to the pool: the transition with its scaled reward
    and with [terminal] set when the environment ended the episode or the
    path reached [max_path_length]. *)
Theorem every_transition_stored st :
  include_horizon_terminal_transitions (hyper (self st)) = true ->
  let st1 := fst (interact (reset_episode st)) in
  let tr := snd (interact (reset_episode st)) in
  let h := hyper (self st) in
  let t := tr_terminal tr || (max_path_length h <=? path_length st1)%Z in
  let r := tr_reward tr * scale_reward h in
  terminal (collect st) = t /\
  pool (collect st)
  = add_sample (pool st) (tr_observation tr) (tr_action tr) r t /\
  filter is_add_sample (calls_since st (train_step st))
  = [CallAddSample (tr_observation tr) (tr_action tr) r t].
Proof.
  intros Hinc. cbv zeta.
  assert (Hterm : terminal (fst (interact (reset_episode st)))
                  = tr_terminal (snd (interact (reset_episode st))))
    by now rewrite interact_eq.
  assert (Hh : hyper (self (fst (interact (reset_episode st))))
               = hyper (self st))
    by now rewrite self_interact, hyper_reset_episode.
  destruct (store_cases (fst (interact (reset_episode st)))
              (snd (interact (reset_episode st)))) as [Hhor Hord].
  rewrite Hh, pool_before_store, <- collect_eq, Hinc, Hterm in Hhor.
  rewrite Hh, pool_before_store, <- collect_eq, Hterm in Hord.
  destruct (tr_terminal (snd (interact (reset_episode st)))) eqn:Ht.
  - destruct Hord as (H1 & H2 & H3); [now left|].
    rewrite (added_in_step st _ H3). now repeat split.
  - destruct (Z.leb_spec (max_path_length (hyper (self st)))
                (path_length (fst (interact (reset_episode st)))))
      as [Hle | Hlt].
    + destruct Hhor as (H1 & H2 & H3); [now split|].
      rewrite (added_in_step st _ H3). now repeat split.
    + destruct Hord as (H1 & H2 & H3); [now right|].
      rewrite (added_in_step st _ H3). now repeat split.
Qed.

(** X11: a transition on which the environment itself ends the episode is
    stored whatever the flag and the path length are, with [terminal]
    set. *)
Theorem environment_terminal_stored st :
  let tr := snd (interact (reset_episode st)) in
  let r := tr_reward tr * scale_reward (hyper (self st)) in
  tr_terminal tr = true ->
  terminal (collect st) = true /\
  pool (collect st)
  = add_sample (pool st) (tr_observation tr) (tr_action tr) r true /\
  filter is_add_sample (calls_since st (train_step st))
  = [CallAddSample (tr_observation tr) (tr_action tr) r true].
Proof.
  cbv zeta. intros Ht.
  assert (Hterm : terminal (fst (interact (reset_episode st)))
                  = tr_terminal (snd (interact (reset_episode st))))
    by now rewrite interact_eq.
  assert (Hh : hyper (self (fst (interact (reset_episode st))))
               = hyper (self st))
    by now rewrite self_interact, hyper_reset_episode.
  destruct (store_cases (fst (interact (reset_episode st)))
              (snd (interact (reset_episode st)))) as [_ Hord].
  rewrite Hh, pool_before_store, <- collect_eq, Hterm, Ht in Hord.
  destruct Hord as (H1 & H2 & H3); [now left|].
  rewrite (added_in_step st _ H3). now repeat split.
Qed.

(** *** The optimisation steps *)

Lemma tensor_add_zero (t u : Tensor) :
  length t = length u -> tensor_add (map (fun _ => 0) t) u = u.
Proof.
  unfold tensor_add. revert u.
  induction t as [|x t IH]; intros [|y u] Hl; simpl in *;
    try discriminate; [reflexivity|].
  rewrite Rplus_0_l, IH; [reflexivity | congruence].
Qed.

Lemma params_add_zero (old g : Params) :
  same_shape old g -> params_add (params_zero old) g = g.
Proof.
  unfold params_add, params_zero.
  induction 1 as [|t u ts us Hl _ IH]; simpl; [reflexivity|].
  now rewrite IH, tensor_add_zero.
Qed.

(** The two optimisation steps in full, on a trainer whose optimisers hold
    the live parameters. *)
Lemma train_qf_eq s (y : Array) (obs : list Obs) (acts : list Act) :
  opt_params (qf_optimizer s) = RefQf ->
  let o := qf_optimizer s in
  let g := gradient (qf_loss obs acts (from_numpy y)) (param_values (qf s)) in
  let buffer := match grad (qf s) with
                | None => g
                | Some old => params_add (params_zero old) g
                end in
  let out := um_step (opt_method o) (opt_state o) (opt_lr o)
               (opt_weight_decay o) (param_values (qf s)) buffer in
  qf (train_qf s y obs acts) = mkNetwork (snd out) (Some buffer) /\
  qf_optimizer (train_qf s y obs acts) = set_opt_state o (fst out).
Proof.
  intros Hq. cbv zeta. unfold train_qf, zero_grad, step.
  rewrite Hq. simpl. rewrite Hq. simpl.
  destruct (grad (qf s)) as [old|]; simpl;
    destruct (um_step _ _ _ _ _ _) as [st' v']; split; reflexivity.
Qed.

Lemma train_policy_eq s (obs : list Obs) :
  opt_params (policy_optimizer s) = RefPolicy ->
  let o := policy_optimizer s in
  let g := gradient (fun p => average_q obs p (param_values (qf s)))
             (param_values (policy s)) in
  let buffer := match grad (policy s) with
                | None => g
                | Some old => params_add (params_zero old) g
                end in
  let out := um_step (opt_method o) (opt_state o) (opt_lr o)
               (opt_weight_decay o) (param_values (policy s)) buffer in
  policy (train_policy s obs) = mkNetwork (snd out) (Some buffer) /\
  policy_optimizer (train_policy s obs) = set_opt_state o (fst out).
Proof.
  intros Hp. cbv zeta. unfold train_policy, zero_grad, step.
  rewrite Hp. simpl. rewrite Hp. simpl.
  destruct (grad (policy s)) as [old|]; simpl;
    destruct (um_step _ _ _ _ _ _) as [st' v']; split; reflexivity.
Qed.

Lemma live_soft_update s :
  policy (soft_update_qf (soft_update_policy s)) = policy s /\
  qf (soft_update_qf (soft_update_policy s)) = qf s.
Proof. split; reflexivity. Qed.

(** X12: [train_qf] on a trainer whose critic optimiser holds the critic's
    parameters changes the critic and the state of its optimiser only: the
    policy, its optimiser and both targets are untouched, the critic's
    parameters become the optimiser's output on the gradient of the
    mean-squared error against the expected q-values, and the optimiser
    keeps its method, learning rate and weight decay. *)
Theorem train_qf_changes_critic_only
  s (y : Array) (obs : list Obs) (acts : list Act) :
  well_bound s ->
  let s' := train_qf s y obs acts in
  let o := qf_optimizer s in
  let g := gradient (qf_loss obs acts (from_numpy y)) (param_values (qf s)) in
  policy s' = policy s /\ policy_optimizer s' = policy_optimizer s /\
  target_qf s' = target_qf s /\ target_policy s' = target_policy s /\
  opt_settings (qf_optimizer s') = opt_settings o /\
  param_values (qf s')
  = snd (um_step (opt_method o) (opt_state o) (opt_lr o)
           (opt_weight_decay o) (param_values (qf s))
           match grad (qf s) with
           | None => g
           | Some old => params_add (params_zero old) g
           end).
Proof.
  intros [Hq _]. cbv zeta.
  destruct (train_qf_frame s y obs acts Hq)
    as (_ & Hpol & Htq & Htp & Hpo & _).
  destruct (train_qf_eq s y obs acts Hq) as [Hn Ho].
  rewrite Hn, Ho.
  split; [exact Hpol|]. split; [exact Hpo|].
  split; [exact Htq|]. split; [exact Htp|]. split; reflexivity.
Qed.

(** X13: a gradient left in the critic's buffer by an earlier [backward]
    ([train_policy] leaves one there) has no influence on [train_qf]:
    [zero_grad] clears it, so for a buffer of the gradient's shape the new
    parameters are the optimiser's output on the fresh gradient alone, and
    the buffer afterwards holds that gradient. *)
Theorem train_qf_ignores_stale_gradient
  s (y : Array) (obs : list Obs) (acts : list Act) (old : Params) :
  well_bound s ->
  let o := qf_optimizer s in
  let g := gradient (qf_loss obs acts (from_numpy y)) (param_values (qf s)) in
  grad (qf s) = Some old ->
  same_shape old g ->
  qf (train_qf s y obs acts)
  = mkNetwork
      (snd (um_step (opt_method o) (opt_state o) (opt_lr o)
              (opt_weight_decay o) (param_values (qf s)) g))
      (Some g).
Proof.
  intros [Hq _]. cbv zeta. intros Hg Hs.
  destruct (train_qf_eq s y obs acts Hq) as [Hn _].
  rewrite Hn, Hg, (params_add_zero _ _ Hs). reflexivity.
Qed.

(** X14: within one [do_training] the policy step sees the critic that
    [train_qf] has just updated: the policy's new parameters are its
    optimiser's output on the gradient of [average_q] taken with the
    updated critic; the policy step leaves those critic parameters as they
    are, and the soft updates that follow change neither live network. *)
Theorem do_training_order s (i : Z) (b : Batch Obs Act) :
  well_bound s ->
  let obs := observations b in
  let s1 := train_qf s (ys s b) obs (actions b) in
  let s' := do_training s i b in
  let o := policy_optimizer s in
  let g := gradient (fun p => average_q obs p (param_values (qf s1)))
             (param_values (policy s)) in
  param_values (qf s') = param_values (qf s1) /\
  policy s' = policy (train_policy s1 obs) /\
  param_values (policy s')
  = snd (um_step (opt_method o) (opt_state o) (opt_lr o)
           (opt_weight_decay o) (param_values (policy s))
           match grad (policy s) with
           | None => g
           | Some old => params_add (params_zero old) g
           end).
Proof.
  intros [Hq Hp]. cbv zeta.
  destruct (train_qf_frame s (ys s b) (observations b) (actions b) Hq)
    as (_ & Hpol1 & _ & _ & Hpo1 & _).
  set (s1 := train_qf s (ys s b) (observations b) (actions b)) in *.
  assert (Hp1 : opt_params (policy_optimizer s1) = RefPolicy)
    by (rewrite Hpo1; exact Hp).
  destruct (train_policy_frame s1 (observations b) Hp1) as (_ & Hqf2 & _).
  destruct (train_policy_eq s1 (observations b) Hp1) as [Hn _].
  destruct (live_soft_update (train_policy s1 (observations b)))
    as [Hl1 Hl2].
  unfold do_training. cbv zeta. fold s1.
  rewrite Hl1, Hl2, Hqf2, Hn, Hpol1, Hpo1.
  split; [reflexivity|]. split; reflexivity.
Qed.

(** *** Properties of the trainer that every pass keeps *)

Section Invariant.
Variable Q : DDPG M St -> Prop.
Hypothesis Q_do_training : forall s i b, Q s -> Q (do_training s i b).
Hypothesis Q_returns : forall s r, Q s -> Q (set_es_path_returns s r).

Lemma invariant_update_loop (n : nat) st :
  Q (self st) -> Q (self (update_loop n st)).
Proof.
  revert st.
  induction n as [|n IH]; intros st Hq; simpl; [exact Hq|].
  destruct (random_batch (pool st) (rng st) (batch_size (hyper (self st))))
    as [[p' g'] b].
  apply IH. cbn [self]. now apply Q_do_training.
Qed.

Lemma invariant_train_step st : Q (self st) -> Q (self (train_step st)).
Proof.
  intros Hq. unfold train_step, next_itr, update. cbn [self].
  assert (Hc : Q (self (collect st))).
  { rewrite self_collect, self_reset_episode.
    destruct (terminal st); [now apply Q_returns | exact Hq]. }
  destruct (_ <=? _)%Z; [now apply invariant_update_loop | exact Hc].
Qed.

Lemma invariant_iterate (n : nat) st :
  Q (self st) -> Q (self (iterate n st)).
Proof.
  revert st.
  induction n as [|n IH]; intros st Hq; simpl; [exact Hq|].
  apply IH. now apply invariant_train_step.
Qed.

Lemma invariant_epochs (n : nat) (epoch : Z) st st' :
  Q (self st) -> epochs n epoch st = Ok st' -> Q (self st').
Proof.
  revert epoch st.
  induction n as [|n IH]; intros epoch st Hq; simpl.
  - intros [= <-]. exact Hq.
  - destruct (prog_bar _) as [passes | e]; [|discriminate].
    apply IH. unfold end_of_epoch.
    destruct (_ <=? _)%Z; cbn [self]; now apply invariant_iterate.
Qed.

Lemma invariant_train s (env0 : E) (es0 : X) (rng0 : G) st :
  Q s -> train s env0 es0 rng0 = Ok st -> Q (self st).
Proof.
  intros Hq. unfold train, start_worker.
  destruct (plot (hyper s)); [discriminate|].
  destruct (epochs _ _ _) as [st1 | e] eqn:He; [|discriminate].
  intros [= <-]. cbn [self].
  refine (invariant_epochs _ _ _ st1 _ He).
  now rewrite initial_state_eq.
Qed.
End Invariant.

Lemma optimizers_soft_update s :
  qf_optimizer (soft_update_qf (soft_update_policy s)) = qf_optimizer s /\
  policy_optimizer (soft_update_qf (soft_update_policy s))
  = policy_optimizer s.
Proof. split; reflexivity. Qed.

Lemma do_training_settings s (i : Z) (b : Batch Obs Act) :
  well_bound s ->
  opt_settings (qf_optimizer (do_training s i b))
  = opt_settings (qf_optimizer s) /\
  opt_settings (policy_optimizer (do_training s i b))
  = opt_settings (policy_optimizer s).
Proof.
  intros [Hq Hp].
  destruct (train_qf_frame s (ys s b) (observations b) (actions b) Hq)
    as (_ & _ & _ & _ & Hpo1 & _).
  destruct (train_qf_eq s (ys s b) (observations b) (actions b) Hq)
    as [_ Hqo1].
  set (s1 := train_qf s (ys s b) (observations b) (actions b)) in *.
  assert (Hp1 : opt_params (policy_optimizer s1) = RefPolicy)
    by (rewrite Hpo1; exact Hp).
  destruct (train_policy_frame s1 (observations b) Hp1)
    as (_ & _ & _ & _ & Hqo2 & _).
  destruct (train_policy_eq s1 (observations b) Hp1) as [_ Hpo2].
  destruct (optimizers_soft_update (train_policy s1 (observations b)))
    as [Hs1 Hs2].
  unfold do_training. cbv zeta. fold s1.
  rewrite Hs1, Hs2, Hqo2, Hqo1, Hpo2, Hpo1. split; reflexivity.
Qed.

(** X15: the optimisers are built once: through a whole run that returns
    on a constructed trainer the critic's optimiser keeps its update method,
    the critic's parameters, [qf_learning_rate] and [qf_weight_decay], and
    the policy's keeps its method, the policy's parameters,
    [policy_learning_rate] and no weight decay. *)
Theorem optimizer_settings_kept
  (env0 : E) (policy0 qf0 : Network) (a : Args M) (es0 : X) (rng0 : G) :
  arg_plot a = false ->
  (0 < arg_epoch_length a \/ arg_n_epochs a <= 0)%Z ->
  exists st,
    train (__init__ env0 policy0 qf0 a) env0 es0 rng0 = Ok st /\
    opt_settings (qf_optimizer (self st))
    = (arg_qf_update_method a, RefQf, arg_qf_learning_rate a,
       Some (arg_qf_weight_decay a)) /\
    opt_settings (policy_optimizer (self st))
    = (arg_policy_update_method a, RefPolicy, arg_policy_learning_rate a,
       None).
Proof.
  intros Hp Hl.
  destruct (train_run (__init__ env0 policy0 qf0 a) env0 es0 rng0 Hp Hl)
    as (st & Hst & _).
  exists st. split; [exact Hst|].
  apply (invariant_train
           (fun s =>
              opt_settings (qf_optimizer s)
              = (arg_qf_update_method a, RefQf, arg_qf_learning_rate a,
                 Some (arg_qf_weight_decay a)) /\
              opt_settings (policy_optimizer s)
              = (arg_policy_update_method a, RefPolicy,
                 arg_policy_learning_rate a, None))
           ) with (4 := Hst).
  - intros s i b [Hq Hpo].
    assert (Hw : well_bound s).
    { split; [now injection Hq | now injection Hpo]. }
    destruct (do_training_settings s i b Hw) as [-> ->]. now split.
  - intros s r Hs. exact Hs.
  - split; reflexivity.
Qed.

(** X16: a pass on which the path reaches [max_path_length] without the
    environment ending the episode sets [terminal], so the pass after it
    starts a new episode whether or not the transition was stored: after
    that next pass the path length is 1, and the return recorded for the
    finished path counts the reward of the horizon transition. *)
Theorem horizon_then_reset st :
  let st1 := fst (interact (reset_episode st)) in
  let tr := snd (interact (reset_episode st)) in
  tr_terminal tr = false ->
  (max_path_length (hyper (self st)) <= path_length st1)%Z ->
  terminal (train_step st) = true /\
  path_length (train_step (train_step st)) = 1%Z /\
  es_path_returns (self (train_step (train_step st)))
  = es_path_returns (self (reset_episode st))
      ++ [path_return (reset_episode st) + tr_reward tr].
Proof.
  cbv zeta. intros Ht Hl.
  assert (Hterm : terminal (fst (interact (reset_episode st)))
                  = tr_terminal (snd (interact (reset_episode st))))
    by now rewrite interact_eq.
  assert (Hh : hyper (self (fst (interact (reset_episode st))))
               = hyper (self st))
    by now rewrite self_interact, hyper_reset_episode.
  destruct (store_cases (fst (interact (reset_episode st)))
              (snd (interact (reset_episode st)))) as [Hhor _].
  rewrite Hh, <- collect_eq in Hhor.
  destruct Hhor as (H1 & _); [split; [congruence | exact Hl]|].
  destruct (update_keeps (collect st))
    as (_ & Hret & _ & _ & _ & _ & Hpr & Hut & _).
  destruct (collect_keeps st) as (_ & _ & _ & Hcr & _).
  assert (Hterm1 : terminal (train_step st) = true).
  { unfold train_step, next_itr. cbn [terminal]. now rewrite Hut. }
  assert (Hret1 : es_path_returns (self (train_step st))
                  = es_path_returns (self (reset_episode st))).
  { unfold train_step, next_itr. cbn [self].
    now rewrite Hret, self_collect. }
  assert (Hpr1 : path_return (train_step st)
                 = path_return (reset_episode st)
                   + tr_reward (snd (interact (reset_episode st)))).
  { unfold train_step, next_itr. cbn [path_return]. now rewrite Hpr. }
  split; [exact Hterm1|].
  destruct (train_step_keeps (train_step st)) as (_ & _ & Hl2 & _).
  rewrite Hterm1 in Hl2.
  split; [exact Hl2|].
  destruct (update_keeps (collect (train_step st))) as (_ & Hret2 & _).
  unfold train_step at 1, next_itr. cbn [self].
  rewrite Hret2, self_collect, self_reset_episode, Hterm1.
  cbn [es_path_returns set_es_path_returns].
  now rewrite Hret1, Hpr1.
Qed.

End Run.

(** ** The run on the sample world *)

Lemma train_plot_name_error_sample :
  arg_plot Sample.args_plot = true /\
  train (__init__ 0%nat Sample.policy0 Sample.qf0 Sample.args_plot)
    0%nat tt 0%nat
  = Raise NameError /\
  arg_plot Sample.args_no_pass = false /\
  (0 < arg_n_epochs Sample.args_no_pass)%Z /\
  (arg_epoch_length Sample.args_no_pass <= 0)%Z /\
  train (__init__ 0%nat Sample.policy0 Sample.qf0 Sample.args_no_pass)
    0%nat tt 0%nat
  = Raise AssertionError.
Proof.
  assert (Hn : (0 < arg_n_epochs Sample.args_no_pass)%Z) by reflexivity.
  assert (Hl : (arg_epoch_length Sample.args_no_pass <= 0)%Z)
    by discriminate.
  destruct (train_plot_name_error 0%nat Sample.policy0 Sample.qf0
              Sample.args_plot tt 0%nat) as [Hraise _].
  destruct (train_plot_name_error 0%nat Sample.policy0 Sample.qf0
              Sample.args_no_pass tt 0%nat) as (_ & Hassert & _).
  split; [reflexivity|]. split; [apply Hraise; reflexivity|].
  split; [reflexivity|]. split; [exact Hn|]. split; [exact Hl|].
  exact (Hassert eq_refl Hn Hl).
Defined.

Lemma train_step_total_sample :
  plot (hyper Sample.trainer) = false /\
  (0 < epoch_length (hyper Sample.trainer))%Z /\
  exists st, train Sample.trainer 0%nat tt 0%nat = Ok st /\ itr st = 3%Z.
Proof.
  assert (Hl : (0 < epoch_length (hyper Sample.trainer))%Z) by reflexivity.
  split; [reflexivity|]. split; [exact Hl|].
  destruct (train_step_total Sample.trainer 0%nat tt 0%nat eq_refl
              (or_introl Hl))
    as (st & Hst & _ & Hi & _).
  exists st. split; [exact Hst | exact Hi].
Defined.

Lemma path_length_bounded_sample :
  epochs 0 0%Z (initial_state Sample.trainer 0%nat tt 0%nat [])
  = Ok Sample.start /\
  (0 <= path_length (iterate 2 Sample.start) <= 1)%Z.
Proof.
  split; [reflexivity|].
  destruct (path_length_bounded Sample.trainer 0%nat tt 0%nat [] 0 2 0%Z
              Sample.start eq_refl) as [Hb _].
  exact Hb.
Defined.

Lemma train_resets_and_returns_sample :
  plot (hyper Sample.trainer) = false /\
  (0 < epoch_length (hyper Sample.trainer))%Z /\
  exists st,
    train Sample.trainer 0%nat tt 0%nat = Ok st /\
    count is_env_reset (log st) = S (count is_es_reset (log st)).
Proof.
  assert (Hl : (0 < epoch_length (hyper Sample.trainer))%Z) by reflexivity.
  split; [reflexivity|]. split; [exact Hl|].
  destruct (train_resets_and_returns Sample.trainer 0%nat tt 0%nat eq_refl
              (or_introl Hl))
    as (st & Hst & Hr & _).
  exists st. split; [exact Hst | exact Hr].
Defined.

Lemma train_evaluations_sample :
  plot (hyper Sample.trainer) = false /\
  (0 < epoch_length (hyper Sample.trainer))%Z /\
  exists st,
    train Sample.trainer 0%nat tt 0%nat = Ok st /\
    (count is_save_itr_params (log st) <= 1)%nat.
Proof.
  assert (Hl : (0 < epoch_length (hyper Sample.trainer))%Z) by reflexivity.
  split; [reflexivity|]. split; [exact Hl|].
  destruct (train_evaluations Sample.trainer 0%nat tt 0%nat eq_refl
              (or_introl Hl))
    as (st & Hst & _ & Hk).
  exists st. split; [exact Hst | exact Hk].
Defined.

Lemma train_first_and_last_calls_sample :
  plot (hyper Sample.trainer) = false /\
  (0 < epoch_length (hyper Sample.trainer))%Z /\
  exists st calls,
    train Sample.trainer 0%nat tt 0%nat = Ok st /\
    log st = [CallPopulateTask; CallEnvReset] ++ calls ++ [CallEnvTerminate].
Proof.
  assert (Hl : (0 < epoch_length (hyper Sample.trainer))%Z) by reflexivity.
  split; [reflexivity|]. split; [exact Hl|].
  destruct (train_first_and_last_calls Sample.trainer 0%nat tt 0%nat
              eq_refl) as [Hok _].
  exact (Hok (or_introl Hl)).
Defined.

Lemma train_without_epochs_sample :
  (n_epoch (hyper Sample.idle) <= 0)%Z /\
  plot (hyper Sample.idle) = false /\
  train Sample.idle 0%nat tt 0%nat
  = Ok (mkLoop Sample.idle 0%nat tt [] 0%nat 0%Z 0%Z 0 false 0%nat
          [CallPopulateTask; CallEnvReset; CallEnvTerminate]).
Proof.
  split; [discriminate|]. split; [reflexivity|].
  assert (Hn : (n_epoch (hyper Sample.idle) <= 0)%Z) by discriminate.
  exact (train_without_epochs Sample.idle 0%nat tt 0%nat Hn eq_refl).
Defined.

Lemma no_update_before_min_pool_size_sample :
  (pool_size (pool (collect Sample.start_keeper))
   < min_pool_size (hyper (self Sample.start_keeper)))%Z /\
  qf (self (train_step Sample.start_keeper)) = Sample.qf0.
Proof.
  split; [reflexivity|].
  destruct (no_update_before_min_pool_size Sample.start_keeper)
    as (_ & Hq & _); [reflexivity|].
  exact Hq.
Defined.

Lemma pass_inside_episode_sample :
  terminal Sample.start = false /\
  path_length (train_step Sample.start) = (0 + 1)%Z /\
  path_return (train_step Sample.start) = 0 + 3.
Proof.
  split; [reflexivity|].
  destruct (pass_inside_episode Sample.start eq_refl)
    as (_ & Hl & Hr & _).
  split; [exact Hl | exact Hr].
Defined.

Lemma every_transition_stored_sample :
  include_horizon_terminal_transitions (hyper (self Sample.start_keeper))
  = true /\
  pool (collect Sample.start_keeper) = [(0%nat, 0%nat, 3 * 10, true)].
Proof.
  split; [reflexivity|].
  destruct (every_transition_stored Sample.start_keeper eq_refl)
    as (_ & Hp & _).
  exact Hp.
Defined.

Lemma environment_terminal_stored_sample :
  tr_terminal (snd (interact (reset_episode Sample.at_end))) = true /\
  pool (collect Sample.at_end) = [(5%nat, 5%nat, 3 * 10, true)].
Proof.
  split; [reflexivity|].
  destruct (environment_terminal_stored Sample.at_end)
    as (_ & Hp & _); [reflexivity|].
  exact Hp.
Defined.

Lemma train_qf_changes_critic_only_sample :
  well_bound Sample.trainer /\
  policy (train_qf Sample.trainer [1%float; 2%float] [0%nat; 1%nat] [0%nat; 0%nat])
  = Sample.policy0.
Proof.
  split; [split; reflexivity|].
  destruct (train_qf_changes_critic_only Sample.trainer [1%float; 2%float]
              [0%nat; 1%nat] [0%nat; 0%nat]) as (Hp & _);
    [split; reflexivity|].
  exact Hp.
Defined.

Lemma train_qf_ignores_stale_gradient_sample :
  well_bound Sample.stepped /\
  grad (qf Sample.stepped) = Some [[8]] /\
  same_shape [[8]] [[8]] /\
  qf (train_qf Sample.stepped [1%float; 2%float] [0%nat; 1%nat] [0%nat; 0%nat])
  = mkNetwork [[8 + 1]] (Some [[8]]).
Proof.
  assert (Hs : same_shape [[8]] [[8]])
    by (constructor; [reflexivity | constructor]).
  assert (Hw : well_bound Sample.stepped) by (split; reflexivity).
  assert (Hg : grad (qf Sample.stepped) = Some [[8]]) by reflexivity.
  split; [exact Hw|]. split; [exact Hg|]. split; [exact Hs|].
  exact (train_qf_ignores_stale_gradient Sample.stepped
           [1%float; 2%float]
           [0%nat; 1%nat] [0%nat; 0%nat] [[8]] Hw Hg Hs).
Defined.

Lemma do_training_order_sample :
  well_bound Sample.trainer /\
  param_values (qf (do_training Sample.trainer 0%Z Sample.batch0))
  = param_values
      (qf (train_qf Sample.trainer (ys Sample.trainer Sample.batch0)
             (observations Sample.batch0) (actions Sample.batch0))).
Proof.
  split; [split; reflexivity|].
  destruct (do_training_order Sample.trainer 0%Z Sample.batch0)
    as (Hq & _); [split; reflexivity|].
  exact Hq.
Defined.

Lemma optimizer_settings_kept_sample :
  arg_plot Sample.args = false /\
  (0 < arg_epoch_length Sample.args)%Z /\
  exists st,
    train Sample.trainer 0%nat tt 0%nat = Ok st /\
    opt_settings (policy_optimizer (self st)) = (tt, RefPolicy, 1, None).
Proof.
  assert (Hl : (0 < arg_epoch_length Sample.args)%Z) by reflexivity.
  split; [reflexivity|]. split; [exact Hl|].
  destruct (optimizer_settings_kept 0%nat Sample.policy0 Sample.qf0
              Sample.args tt 0%nat eq_refl (or_introl Hl))
    as (st & Hst & _ & Hp).
  exists st. split; [exact Hst | exact Hp].
Defined.

Lemma horizon_then_reset_sample :
  tr_terminal (snd (interact (reset_episode Sample.start))) = false /\
  (max_path_length (hyper (self Sample.start))
   <= path_length (fst (interact (reset_episode Sample.start))))%Z /\
  terminal (train_step Sample.start) = true /\
  path_length (train_step (train_step Sample.start)) = 1%Z.
Proof.
  split; [reflexivity|]. split; [discriminate|].
  destruct (horizon_then_reset Sample.start) as (Ht & Hl & _);
    [reflexivity | discriminate |].
  split; [exact Ht | exact Hl].
Defined.
